(** * autonetkit.anm.edge: the edge handle [NmEdge]

    A shallow embedding of [src/autonetkit/anm/edge.py] and the properties
    the specification states about it.

    Conventions of the embedding.
    - The module is Python 2 code ([__nonzero__] is the Python 2 truth
      hook); builtins follow Python 2: [hasattr] answers [False] on any
      exception raised by the attribute lookup, and values of different
      types are ordered (numbers before strings).
    - The abstract network model [anm] is shared, mutable state.  It is
      threaded explicitly through every operation; the [anm] field of a
      handle is the reference to that state.
    - Exceptions are values of [exn]; an operation returns [result A]. *)

From stdpp Require Import gmap strings list fin_maps.
From Stdlib Require Import ZArith String Ascii OrderedTypeEx.

Set Warnings "-register-all".

Local Open Scope string_scope.
Local Open Scope Z_scope.

(** ** Python values *)

(** Hashable scalars: node ids, overlay ids, edge keys. *)
Inductive atom :=
  | AInt (z : Z)
  | AStr (s : string).

#[global] Instance atom_eq_dec : EqDecision atom.
Proof. solve_decision. Defined.

Definition atom_to_sum (a : atom) : Z + string :=
  match a with AInt z => inl z | AStr s => inr s end.

Definition atom_of_sum (x : Z + string) : atom :=
  match x with inl z => AInt z | inr s => AStr s end.

#[global] Instance atom_countable : Countable atom.
Proof.
  apply (inj_countable' atom_to_sum atom_of_sum).
  by intros [].
Defined.

(** Data values: what attribute records hold and what a handle may be
    compared with.  A dict keeps its items in a list (keys unique). *)
Inductive pyval :=
  | VNone
  | VAtom (a : atom)
  | VTuple (items : list pyval)
  | VList (items : list pyval)
  | VDict (items : list (atom * pyval)).

(** The exceptions the module can raise. *)
Inductive exn :=
  | KeyError
  | IndexError
  | AttributeError
  | TypeError.

#[global] Instance exn_eq_dec : EqDecision exn.
Proof. solve_decision. Defined.

Inductive result (A : Type) :=
  | Ok (a : A)
  | Raise (e : exn).
Arguments Ok {A} a.
Arguments Raise {A} e.

Definition bind {A B} (r : result A) (k : A -> result B) : result B :=
  match r with
  | Ok a => k a
  | Raise e => Raise e
  end.

Notation "x <- r ;; k" := (bind r (fun x => k))
  (at level 100, r at next level, right associativity).

Definition is_ok {A} (r : result A) : bool :=
  match r with Ok _ => true | Raise _ => false end.

(** [a == v] for a scalar [a]: only an equal scalar is equal to it. *)
Definition atom_eq_val (a : atom) (v : pyval) : bool :=
  match v with
  | VAtom b => bool_decide (a = b)
  | _ => false
  end.

(** [(a1, ..., an) == v]: a tuple equals only a tuple of the same length
    with pairwise equal items. *)
Fixpoint items_eq (l : list atom) (vs : list pyval) : bool :=
  match l, vs with
  | [], [] => true
  | a :: l', v :: vs' => atom_eq_val a v && items_eq l' vs'
  | _, _ => false
  end.

Definition tuple_eq_val (l : list atom) (v : pyval) : bool :=
  match v with
  | VTuple vs => items_eq l vs
  | _ => false
  end.

(** [len(v)]; [None] when the value has no length ([TypeError]). *)
Definition py_len (v : pyval) : option nat :=
  match v with
  | VNone => None
  | VAtom (AInt _) => None
  | VAtom (AStr s) => Some (String.length s)
  | VTuple l => Some (List.length l)
  | VList l => Some (List.length l)
  | VDict d => Some (List.length d)
  end.

(** Sequence indexing [l[i]], negative indices counting from the end. *)
Definition seq_index {A} (l : list A) (i : Z) : option A :=
  if 0 <=? i then l !! Z.to_nat i
  else if - Z.of_nat (List.length l) <=? i
       then l !! Z.to_nat (Z.of_nat (List.length l) + i)
  else None.

Fixpoint dict_lookup (d : list (atom * pyval)) (k : atom) : option pyval :=
  match d with
  | [] => None
  | (k', v) :: d' => if bool_decide (k = k') then Some v else dict_lookup d' k
  end.

(** [v[k]] on a data value. *)
Definition getitem (v : pyval) (k : atom) : result pyval :=
  match v with
  | VDict d =>
      match dict_lookup d k with Some x => Ok x | None => Raise KeyError end
  | VTuple l | VList l =>
      match k with
      | AInt i =>
          match seq_index l i with Some x => Ok x | None => Raise IndexError end
      | AStr _ => Raise TypeError
      end
  | VAtom (AStr s) =>
      match k with
      | AInt i =>
          match seq_index (list_ascii_of_string s) i with
          | Some c => Ok (VAtom (AStr (String c EmptyString)))
          | None => Raise IndexError
          end
      | AStr _ => Raise TypeError
      end
  | VNone | VAtom (AInt _) => Raise TypeError
  end.

(** ** Ordering of scalars and tuples (Python 2) *)

Definition atom_cmp (a b : atom) : comparison :=
  match a, b with
  | AInt x, AInt y => x ?= y
  | AInt _, AStr _ => Lt
  | AStr _, AInt _ => Gt
  | AStr s, AStr t => String_as_OT.cmp s t
  end.

(** Tuple comparison: the first differing position decides; when one
    tuple is a prefix of the other the shorter one is smaller. *)
Fixpoint tuple_cmp (l1 l2 : list atom) : comparison :=
  match l1, l2 with
  | [], [] => Eq
  | [], _ :: _ => Lt
  | _ :: _, [] => Gt
  | a :: l1', b :: l2' =>
      match atom_cmp a b with
      | Eq => tuple_cmp l1' l2'
      | c => c
      end
  end.

Definition tuple_lt (l1 l2 : list atom) : bool :=
  match tuple_cmp l1 l2 with Lt => true | _ => false end.

(** ** The overlay graph container (networkx) *)

(** The attribute record of an edge: attribute name to value. *)
Abbreviation attr_record := (gmap string pyval).

(** The adjacency structure as [G[u][v]] (and [G[u][v][key]] in a
    multigraph) traverses it.  [Graph] stands for [Graph]/[DiGraph],
    [MultiGraph] for [MultiGraph]/[MultiDiGraph]; an undirected graph
    keeps every edge under both orientations. *)
Inductive nx_adj :=
  | Graph (adj : gmap atom (gmap atom attr_record))
  | MultiGraph (adj : gmap atom (gmap atom (gmap atom attr_record))).

Record nx_graph := mk_graph {
  directed : bool;
  adjacency : nx_adj
}.

Definition nx_is_multigraph (g : nx_graph) : bool :=
  match adjacency g with Graph _ => false | MultiGraph _ => true end.

(** [G.has_edge(u, v, key=None)]: a missing node or neighbour is
    answered with [False]; a simple graph takes no key. *)
Definition has_edge (g : nx_graph) (u v : atom) (key : option atom) : bool :=
  match adjacency g with
  | Graph adj =>
      match adj !! u with
      | Some nbrs => bool_decide (is_Some (nbrs !! v))
      | None => false
      end
  | MultiGraph adj =>
      match adj !! u with
      | Some nbrs =>
          match key with
          | None => bool_decide (is_Some (nbrs !! v))
          | Some k =>
              match nbrs !! v with
              | Some keys => bool_decide (is_Some (keys !! k))
              | None => false
              end
          end
      | None => false
      end
  end.

(** Deleting [v] from the neighbours of [u]. *)
Definition del_nbr {X} (u v : atom) (adj : gmap atom (gmap atom X))
  : gmap atom (gmap atom X) :=
  alter (delete v) u adj.

Definition del_both {X} (dir : bool) (u v : atom)
    (adj : gmap atom (gmap atom X)) : gmap atom (gmap atom X) :=
  if dir then del_nbr u v adj else del_nbr v u (del_nbr u v adj).

(** [G.remove_edge(u, v)] and [G.remove_edge(u, v, key)]; [None] is
    networkx's error for an edge that is not there.  In a multigraph
    the neighbour entry goes with its last key.  (Removal without a key
    from a multigraph picks an arbitrary parallel edge and is not
    modelled: the handle always names its key.) *)
Definition remove_edge (g : nx_graph) (u v : atom) (key : option atom)
  : option nx_graph :=
  match adjacency g, key with
  | Graph adj, None =>
      if has_edge g u v None
      then Some (mk_graph (directed g) (Graph (del_both (directed g) u v adj)))
      else None
  | MultiGraph adj, Some k =>
      match adj !! u ≫= (.!! v) with
      | Some keys =>
          if bool_decide (is_Some (keys !! k)) then
            let keys' := delete k keys in
            let put (a b : atom) := alter (<[b := keys']>) a in
            if bool_decide (keys' = ∅)
            then Some (mk_graph (directed g)
                         (MultiGraph (del_both (directed g) u v adj)))
            else Some (mk_graph (directed g)
                         (MultiGraph (if directed g then put u v adj
                                      else put v u (put u v adj))))
          else None
      | None => None
      end
  | _, _ => None
  end.

(** ** The abstract network model *)

Record ANM := mk_anm {
  overlay_nx_graphs : gmap atom nx_graph
}.

(** ** Collaborating handles *)

(** Modelled from the spec: the Node Handle of [autonetkit/anm/node.py]
    (not part of the sources at hand): constructed by (store, overlay
    id, node id), it exposes its [node_id]; [id] is the same
    identifier. *)
Record NmNode := mk_node {
  node_overlay_id : atom;
  node_id : atom
}.

(** Modelled from the spec: the Interface Handle of
    [autonetkit/anm/interface.py] (not part of the sources at hand):
    constructed by (store, overlay id, node id, interface id), an opaque
    construction target. *)
Record NmPort := mk_port {
  port_overlay_id : atom;
  port_node_id : atom;
  interface_id : pyval
}.

(** ** The edge handle *)

(** [NmEdge.__init__]: the identifying keys; no existence check. *)
Record NmEdge := mk_edge {
  overlay_id : atom;
  src_id : atom;
  dst_id : atom;
  ekey : atom
}.

(** The default [ekey=0] of the constructor. *)
Definition new_edge (ov s d : atom) : NmEdge := mk_edge ov s d (AInt 0).

(** What a handle can be compared with: another handle, or plain data. *)
Inductive operand :=
  | OpEdge (e : NmEdge)
  | OpVal (v : pyval).

(** What attribute access on a handle can produce. *)
Inductive pyobj :=
  | OVal (v : pyval)
  | OAnm
  | OLog
  | OGraph (g : nx_graph)
  | ORecord (r : attr_record)
  | ONode (n : NmNode)
  | OPort (p : NmPort)
  | OMethod (self : NmEdge) (name : string)
  | OInherited (self : NmEdge) (name : string).

(** [__key]: the overlay id is left out on purpose. *)
Definition __key (self : NmEdge) : list atom := [src_id self; dst_id self].

(** The property [_graph]: [self.anm.overlay_nx_graphs[self.overlay_id]]. *)
Definition _graph (anm : ANM) (self : NmEdge) : result nx_graph :=
  match overlay_nx_graphs anm !! overlay_id self with
  | Some g => Ok g
  | None => Raise KeyError
  end.

Definition is_multigraph (anm : ANM) (self : NmEdge) : result bool :=
  g <- _graph anm self ;; Ok (nx_is_multigraph g).

(** [G[u][v]] and [G[u][v][key]] on the container. *)
Definition nx_getitem2 {X} (adj : gmap atom (gmap atom X)) (u v : atom)
  : result X :=
  match adj !! u with
  | Some nbrs =>
      match nbrs !! v with Some x => Ok x | None => Raise KeyError end
  | None => Raise KeyError
  end.

(** The property [_data]: the attribute record of the edge. *)
Definition _data (anm : ANM) (self : NmEdge) : result attr_record :=
  g <- _graph anm self ;;
  match adjacency g with
  | MultiGraph adj =>
      keys <- nx_getitem2 adj (src_id self) (dst_id self) ;;
      match keys !! ekey self with
      | Some r => Ok r
      | None => Raise KeyError
      end
  | Graph adj => nx_getitem2 adj (src_id self) (dst_id self)
  end.

(** [__nonzero__]: does the edge exist. *)
Definition __nonzero__ (anm : ANM) (self : NmEdge) : result bool :=
  mg <- is_multigraph anm self ;;
  g <- _graph anm self ;;
  if mg then Ok (has_edge g (src_id self) (dst_id self) (Some (ekey self)))
  else Ok (has_edge g (src_id self) (dst_id self) None).

(** The properties [src] and [dst]. *)
Definition src (self : NmEdge) : NmNode :=
  mk_node (overlay_id self) (src_id self).

Definition dst (self : NmEdge) : NmNode :=
  mk_node (overlay_id self) (dst_id self).

(** *** Equality *)

(** The first block of [__eq__], entered when [self] is a multigraph
    edge.  [None]: the block ended without a [return].  An attribute
    lookup on plain data raises [AttributeError], which the block
    catches; [len] of a value without a length raises [TypeError] from
    inside the handler. *)
Definition eq_multigraph_block (anm : ANM) (self : NmEdge) (other : operand)
  : option (result bool) :=
  match other with
  | OpEdge o =>
      Some (omg <- is_multigraph anm o ;;
            if omg
            then Ok (bool_decide ((src_id self, dst_id self, ekey self)
                                  = (src_id o, dst_id o, ekey o)))
            else Ok (bool_decide ((src_id self, dst_id self)
                                  = (src_id o, dst_id o))))
  | OpVal v =>
      match py_len v with
      | None => Some (Raise TypeError)
      | Some 2%nat => Some (Ok (tuple_eq_val [src_id self; dst_id self] v))
      | Some 3%nat =>
          Some (Ok (tuple_eq_val [src_id self; dst_id self; ekey self] v))
      | Some _ => None
      end
  end.

(** The closing block of [__eq__]: only (src, dst) is compared. *)
Definition eq_pair_block (self : NmEdge) (other : operand) : result bool :=
  match other with
  | OpEdge o =>
      Ok (bool_decide ((src_id self, dst_id self) = (src_id o, dst_id o)))
  | OpVal v => Ok (tuple_eq_val [src_id self; dst_id self] v)
  end.

Definition __eq__ (anm : ANM) (self : NmEdge) (other : operand)
  : result bool :=
  mg <- is_multigraph anm self ;;
  if mg then
    match eq_multigraph_block anm self other with
    | Some r => r
    | None => eq_pair_block self other
    end
  else eq_pair_block self other.

(** *** Ordering *)

(** [__lt__]; plain data has neither [is_multigraph] nor [src]. *)
Definition __lt__ (anm : ANM) (self : NmEdge) (other : operand)
  : result bool :=
  mg <- is_multigraph anm self ;;
  match other with
  | OpEdge o =>
      both <- (if mg then is_multigraph anm o else Ok false) ;;
      if both
      then Ok (tuple_lt [node_id (src self); node_id (dst self); ekey self]
                        [node_id (src o); node_id (dst o); ekey o])
      else Ok (tuple_lt [node_id (src self); node_id (dst self)]
                        [node_id (src o); node_id (dst o)])
  | OpVal _ => Raise AttributeError
  end.

(** ** Attribute access *)

Section Attributes.

(** [NmEdge] derives from [AnkElement] (autonetkit/anm/ank_element.py,
    not part of the sources at hand).  What the handle gets from it
    (its class attributes, what its [init_logging] leaves on the
    instance) and, through it, from [object] is a parameter: the names
    provided.  They denote methods and class-level objects, which are
    not subscriptable, and there is no [__getattr__] hook ([get] probes
    with [hasattr] and falls back to the record by itself). *)
Variable inherited : string -> bool.

(** The builtin [hash] on tuples of scalars. *)
Variable py_hash : list atom -> Z.

(** [__hash__]. *)
Definition __hash__ (self : NmEdge) : Z := py_hash (__key self).

(** Names the class body of [NmEdge] binds to functions, and the three
    comparisons [total_ordering] adds to [__lt__] and [__eq__]. *)
Definition method_names : list string :=
  [ "__init__"; "_NmEdge__key"; "__hash__"; "is_multigraph"; "is_parallel";
    "__eq__"; "__repr__"; "__getitem__"; "_overlay"; "__lt__";
    "__nonzero__"; "apply_to_interfaces"; "bind_interface"; "interfaces";
    "dump"; "get"; "set"; "__gt__"; "__le__"; "__ge__" ].

(** Names the class body binds to properties. *)
Definition property_names : list string :=
  [ "raw_interfaces"; "_graph"; "_data"; "src"; "dst"; "src_int"; "dst_int" ].

(** The instance attributes [__init__] assigns. *)
Definition field (self : NmEdge) (key : string) : option pyobj :=
  if bool_decide (key = "anm") then Some OAnm
  else if bool_decide (key = "overlay_id")
  then Some (OVal (VAtom (overlay_id self)))
  else if bool_decide (key = "src_id") then Some (OVal (VAtom (src_id self)))
  else if bool_decide (key = "dst_id") then Some (OVal (VAtom (dst_id self)))
  else if bool_decide (key = "ekey") then Some (OVal (VAtom (ekey self)))
  else if bool_decide (key = "log") then Some OLog
  else None.

(** Attribute lookup apart from the properties: instance attributes,
    then the class ([__doc__], [__module__], methods), then what is
    inherited. *)
Definition static_attr (self : NmEdge) (key : string) : option pyobj :=
  match field self key with
  | Some o => Some o
  | None =>
      if bool_decide (key = "__doc__")
      then Some (OVal (VAtom (AStr "API to access link in network")))
      else if bool_decide (key = "__module__")
      then Some (OVal (VAtom (AStr "autonetkit.anm.edge")))
      else if bool_decide (key ∈ method_names) then Some (OMethod self key)
      else if inherited key then Some (OInherited self key)
      else None
  end.

(** [self._data.get(key)]: an unset key gives [None]. *)
Definition data_get (anm : ANM) (self : NmEdge) (key : string)
  : result pyobj :=
  r <- _data anm self ;; Ok (OVal (default VNone (r !! key))).

(** [self.get(key)] for a key that names no property (see [get] and
    [get_plain_eq] below): the property getters call it with
    ["_ports"]. *)
Definition get_plain (anm : ANM) (self : NmEdge) (key : string)
  : result pyobj :=
  match static_attr self key with
  | Some o => Ok o
  | None => data_get anm self key
  end.

(** [o[k]] on the result of an attribute access. *)
Definition obj_getitem (o : pyobj) (k : atom) : result pyval :=
  match o with
  | OVal v => getitem v k
  | ORecord r =>
      match k with
      | AStr s => match r !! s with Some x => Ok x | None => Raise KeyError end
      | AInt _ => Raise KeyError
      end
  | _ => Raise TypeError
  end.

(** The property [raw_interfaces] (getter). *)
Definition raw_interfaces (anm : ANM) (self : NmEdge) : result pyobj :=
  get_plain anm self "_ports".

(** The properties [src_int] and [dst_int]. *)
Definition src_int (anm : ANM) (self : NmEdge) : result NmPort :=
  ports <- get_plain anm self "_ports" ;;
  src_int_id <- obj_getitem ports (src_id self) ;;
  Ok (mk_port (overlay_id self) (src_id self) src_int_id).

Definition dst_int (anm : ANM) (self : NmEdge) : result NmPort :=
  ports <- get_plain anm self "_ports" ;;
  dst_int_id <- obj_getitem ports (dst_id self) ;;
  Ok (mk_port (overlay_id self) (dst_id self) dst_int_id).

(** [getattr(self, key)]: a property runs its getter; a name nobody
    provides raises [AttributeError]. *)
Definition getattr (anm : ANM) (self : NmEdge) (key : string)
  : result pyobj :=
  if bool_decide (key = "raw_interfaces") then raw_interfaces anm self
  else if bool_decide (key = "_graph")
  then g <- _graph anm self ;; Ok (OGraph g)
  else if bool_decide (key = "_data")
  then r <- _data anm self ;; Ok (ORecord r)
  else if bool_decide (key = "src") then Ok (ONode (src self))
  else if bool_decide (key = "dst") then Ok (ONode (dst self))
  else if bool_decide (key = "src_int")
  then p <- src_int anm self ;; Ok (OPort p)
  else if bool_decide (key = "dst_int")
  then p <- dst_int anm self ;; Ok (OPort p)
  else match static_attr self key with
       | Some o => Ok o
       | None => Raise AttributeError
       end.

(** [hasattr(self, key)] (Python 2): the lookup raised nothing. *)
Definition hasattr (anm : ANM) (self : NmEdge) (key : string) : bool :=
  is_ok (getattr anm self key).

(** [get]. *)
Definition get (anm : ANM) (self : NmEdge) (key : string) : result pyobj :=
  if hasattr anm self key then getattr anm self key
  else data_get anm self key.

(** *** Writing *)

(** The effect of [record[key] = val] on the container, for the record
    found at [G[u][v]] (at [G[u][v][k]] in a multigraph).  An undirected
    graph holds the same record under both orientations. *)
Definition alter_record (f : attr_record -> attr_record) (u v k : atom)
    (g : nx_graph) : nx_graph :=
  let once := orb (directed g) (bool_decide (u = v)) in
  match adjacency g with
  | Graph adj =>
      let w (a b : atom) := alter (alter f b) a in
      mk_graph (directed g)
        (Graph (if once then w u v adj else w v u (w u v adj)))
  | MultiGraph adj =>
      let w (a b : atom) := alter (alter (alter f k) b) a in
      mk_graph (directed g)
        (MultiGraph (if once then w u v adj else w v u (w u v adj)))
  end.

(** [self._data[key] = val]: the record is looked up (which may raise),
    then assigned into in place. *)
Definition data_setitem (anm : ANM) (self : NmEdge) (key : string)
    (val : pyval) : result ANM :=
  _ <- _data anm self ;;
  g <- _graph anm self ;;
  Ok (mk_anm (<[overlay_id self :=
                 alter_record (<[key := val]>) (src_id self) (dst_id self)
                   (ekey self) g]> (overlay_nx_graphs anm))).

(** The setter of the property [raw_interfaces]: [self.set('_ports',
    value)], a call of [set] with a key other than the reserved one. *)
Definition raw_interfaces_setter (anm : ANM) (self : NmEdge) (value : pyval)
  : result ANM :=
  data_setitem anm self "_ports" value.

(** [set]: the reserved key goes through the property setter; the
    assignment into the record follows in either case. *)
Definition set (anm : ANM) (self : NmEdge) (key : string) (val : pyval)
  : result ANM :=
  anm1 <- (if bool_decide (key = "raw_interfaces")
           then raw_interfaces_setter anm self val
           else Ok anm) ;;
  data_setitem anm1 self key val.

(** Item assignment [o[k] = x] on the result of an attribute access;
    data and records accept it, anything else raises [TypeError]. *)
Fixpoint dict_set (d : list (atom * pyval)) (k : atom) (x : pyval)
  : list (atom * pyval) :=
  match d with
  | [] => [(k, x)]
  | (k', y) :: d' =>
      if bool_decide (k = k') then (k', x) :: d' else (k', y) :: dict_set d' k x
  end.

Definition obj_setitem (o : pyobj) (k : atom) (x : pyval) : result pyobj :=
  match o with
  | OVal (VDict d) => Ok (OVal (VDict (dict_set d k x)))
  | OVal (VList l) =>
      match k with
      | AInt i =>
          match seq_index l i with
          | Some _ =>
              Ok (OVal (VList (<[Z.to_nat (if 0 <=? i then i
                                           else Z.of_nat (List.length l) + i)
                                 := x]> l)))
          | None => Raise IndexError
          end
      | AStr _ => Raise TypeError
      end
  | ORecord r =>
      match k with
      | AStr s => Ok (ORecord (<[s := x]> r))
      | AInt _ => Raise TypeError
      end
  | _ => Raise TypeError
  end.

(** [bind_interface]: [self._ports[node.id] = interface].  The target
    of the assignment is the attribute [_ports] of the handle itself,
    looked up first; the object it yields is not one the container
    holds, so the network model is returned as it was. *)
Definition bind_interface (anm : ANM) (self : NmEdge) (node : NmNode)
    (interface : pyval) : result ANM :=
  ports <- getattr anm self "_ports" ;;
  _ <- obj_setitem ports (node_id node) interface ;;
  Ok anm.

End Attributes.

(** ** Sample networks (the scenarios of the specification) *)

Definition node_A : atom := AStr "A".
Definition node_B : atom := AStr "B".

(** Overlay ["phy"]: a simple undirected graph with the edge (A, B),
    whose record binds both ports.  Overlay ["phy2"]: an undirected
    multigraph with two parallel edges (A, B), keys 0 and 1. *)
Definition phy_record : attr_record :=
  {[ "_ports" := VDict [(node_A, VAtom (AStr "eth0"));
                        (node_B, VAtom (AStr "eth1"))] ]}.

Definition phy_graph : nx_graph :=
  mk_graph false
    (Graph {[ node_A := {[ node_B := phy_record ]};
              node_B := {[ node_A := phy_record ]} ]}).

Definition phy2_keys : gmap atom attr_record :=
  {[ AInt 0 := ∅; AInt 1 := ∅ ]}.

Definition phy2_graph : nx_graph :=
  mk_graph false
    (MultiGraph {[ node_A := {[ node_B := phy2_keys ]};
                   node_B := {[ node_A := phy2_keys ]} ]}).

Definition sample_anm : ANM :=
  mk_anm {[ AStr "phy" := phy_graph; AStr "phy2" := phy2_graph ]}.

Definition e_phy : NmEdge := new_edge (AStr "phy") node_A node_B.
Definition e0 : NmEdge := mk_edge (AStr "phy2") node_A node_B (AInt 0).
Definition e1 : NmEdge := mk_edge (AStr "phy2") node_A node_B (AInt 1).

(** [AnkElement] as upstream has it: logging helpers only; and the
    attributes every [object] has. *)
Definition sample_inherited (key : string) : bool :=
  bool_decide (key ∈ [ "init_logging"; "log_info"; "log_warning";
                       "log_error"; "log_debug"; "__class__"; "__dict__";
                       "__str__"; "__setattr__"; "__getattribute__" ]).

(** A stand-in for the builtin hash: a polynomial over the code points
    and integers of the items. *)
Definition sample_hash_atom (a : atom) : Z :=
  match a with
  | AInt z => z
  | AStr s =>
      fold_left (fun h c => h * 1000003 + Z.of_N (N_of_ascii c))
                (list_ascii_of_string s) 7
  end.

Definition sample_hash (l : list atom) : Z :=
  fold_left (fun h a => Z.lxor h (sample_hash_atom a) * 1000003) l 3430008.

(** ** Vocabulary of the statements *)

(** The tuple [__lt__] compares: with the edge key between two
    multigraph edges, without it otherwise. *)
Definition order_key (both_multi : bool) (e : NmEdge) : list atom :=
  if both_multi then [node_id (src e); node_id (dst e); ekey e]
  else [node_id (src e); node_id (dst e)].

Definition atom_lt (a b : atom) : Prop := atom_cmp a b = Lt.

(** Plain data that is neither a pair nor a triple. *)
Definition unsupported_shape (v : pyval) : bool :=
  match v with
  | VTuple l => negb (bool_decide (List.length l = 2%nat))
                && negb (bool_decide (List.length l = 3%nat))
  | _ => true
  end.



(** [G[u][v]] as a partial lookup. *)
Definition nbr {X} (adj : gmap atom (gmap atom X)) (u v : atom) : option X :=
  adj !! u ≫= (.!! v).

(** The key [__nonzero__] and [_data] address the edge with. *)
Definition edge_key (g : nx_graph) (e : NmEdge) : option atom :=
  if nx_is_multigraph g then Some (ekey e) else None.

(** The network model with overlay [ov] replaced by [g]. *)
Definition with_overlay (anm : ANM) (ov : atom) (g : nx_graph) : ANM :=
  mk_anm (<[ov := g]> (overlay_nx_graphs anm)).

(** The names attribute lookup on a handle can resolve: properties,
    instance attributes, class attributes, and what is inherited. *)
Definition own_names : list string :=
  property_names
  ++ ["anm"; "overlay_id"; "src_id"; "dst_id"; "ekey"; "log";
      "__doc__"; "__module__"]
  ++ method_names.

Definition names_attribute (inherited : string -> bool) (key : string)
  : bool :=
  bool_decide (key ∈ own_names) || inherited key.

(** The record the container holds for the edge a handle names. *)
Definition record_at (g : nx_graph) (e : NmEdge) : option attr_record :=
  match adjacency g with
  | Graph adj => nbr adj (src_id e) (dst_id e)
  | MultiGraph adj => nbr adj (src_id e) (dst_id e) ≫= (.!! ekey e)
  end.

(** Overlay ["tagged"]: a directed simple graph whose edge (A, B) has a
    record that happens to use names of the handle as attribute keys. *)
Definition tagged_record : attr_record :=
  {[ "ekey" := VAtom (AInt 7); "dump" := VAtom (AStr "x");
     "src_int" := VAtom (AInt 5); "bandwidth" := VAtom (AInt 100) ]}.

Definition tagged_anm : ANM :=
  mk_anm {[ AStr "tagged" :=
              mk_graph true (Graph {[ node_A := {[ node_B := tagged_record ]} ]}) ]}.

Definition e_tagged : NmEdge := new_edge (AStr "tagged") node_A node_B.



(** ** Enumerating bindings and dumping *)

(** [o.items()] on the result of an attribute access: only a dict has
    the method. *)
Definition obj_items (o : pyobj) : result (list (atom * pyval)) :=
  match o with
  | OVal (VDict d) => Ok d
  | ORecord r => Ok (map (fun kv => (AStr kv.1, kv.2)) (map_to_list r))
  | _ => Raise AttributeError
  end.

(** [interfaces]: one interface handle per item of the binding map, in
    the order the map yields its items. *)
Definition interfaces (inherited : string -> bool) (anm : ANM) (self : NmEdge)
  : result (list NmPort) :=
  ports <- get_plain inherited anm self "_ports" ;;
  items <- obj_items ports ;;
  Ok (map (fun item => mk_port (overlay_id self) item.1 item.2) items).

(** What [dump] renders: [self._graph[self.src_id][self.dst_id]], which
    is the record in a simple graph and the dict of all parallel edges,
    by key, in a multigraph. *)
Inductive dumped :=
  | DRecord (r : attr_record)
  | DKeys (keys : gmap atom attr_record).

(** [dump]; the builtin [str] is a parameter. *)
Definition dump (py_str : dumped -> string) (anm : ANM) (self : NmEdge)
  : result string :=
  g <- _graph anm self ;;
  match adjacency g with
  | Graph adj =>
      r <- nx_getitem2 adj (src_id self) (dst_id self) ;;
      Ok (py_str (DRecord r))
  | MultiGraph adj =>
      keys <- nx_getitem2 adj (src_id self) (dst_id self) ;;
      Ok (py_str (DKeys keys))
  end.

(** A stand-in for [str]: the number of entries rendered. *)
Definition sample_str (d : dumped) : string :=
  match d with
  | DRecord r => if bool_decide (size r = 0%nat) then "{}" else "{...}"
  | DKeys keys => if bool_decide (size keys = 1%nat) then "{k}" else "{k, k}"
  end.

(** A handle of overlay ["phy2"] whose key no parallel edge has, and a
    handle into an overlay that does not exist. *)
Definition e9 : NmEdge := mk_edge (AStr "phy2") node_A node_B (AInt 9).
Definition e_lost : NmEdge := new_edge (AStr "nowhere") node_A node_B.









(** Do two handles of one overlay name the same record of the graph:
    the same (src_id, dst_id), or the reversed one in an undirected
    graph, and, in a multigraph, the same edge key. *)
Definition same_record (g : nx_graph) (e e2 : NmEdge) : bool :=
  (bool_decide ((src_id e2, dst_id e2) = (src_id e, dst_id e))
   || negb (directed g)
      && bool_decide ((src_id e2, dst_id e2) = (dst_id e, src_id e)))
  && (negb (nx_is_multigraph g) || bool_decide (ekey e2 = ekey e)).

(** * Properties *)

(** ** Results of the lookups *)

Lemma graph_lookup anm e g :
  _graph anm e = Ok g <-> overlay_nx_graphs anm !! overlay_id e = Some g.
Proof.
  unfold _graph. destruct (overlay_nx_graphs anm !! overlay_id e); split;
    intros H; inversion H; reflexivity.
Qed.

Lemma is_multigraph_of_graph anm e g :
  _graph anm e = Ok g -> is_multigraph anm e = Ok (nx_is_multigraph g).
Proof. unfold is_multigraph. intros ->. reflexivity. Qed.

Lemma pair_eq_iff (a b c d : atom) :
  bool_decide ((a, b) = (c, d)) = true <-> a = c /\ b = d.
Proof.
  rewrite bool_decide_eq_true. split; [intros [= -> ->] | intros [-> ->]]; auto.
Qed.

Lemma triple_eq_iff (a b k c d k' : atom) :
  bool_decide ((a, b, k) = (c, d, k')) = true <-> a = c /\ b = d /\ k = k'.
Proof.
  rewrite bool_decide_eq_true.
  split; [intros [= -> -> ->] | intros (-> & -> & ->)]; auto.
Qed.

(** The value of [e1 == e2] between two handles whose overlays exist:
    a function of the identifiers and of the two multigraph flags. *)
Lemma eq_handles anm a b ga gb :
  _graph anm a = Ok ga -> _graph anm b = Ok gb ->
  __eq__ anm a (OpEdge b) =
    Ok (if nx_is_multigraph ga && nx_is_multigraph gb
        then bool_decide ((src_id a, dst_id a, ekey a)
                          = (src_id b, dst_id b, ekey b))
        else bool_decide ((src_id a, dst_id a) = (src_id b, dst_id b))).
Proof.
  intros Ha Hb. unfold __eq__.
  rewrite (is_multigraph_of_graph _ _ _ Ha). simpl.
  destruct (nx_is_multigraph ga); simpl; [|reflexivity].
  rewrite (is_multigraph_of_graph _ _ _ Hb). simpl.
  destruct (nx_is_multigraph gb); reflexivity.
Qed.

(** ** Equality and hash *)

(** C1. Two handles of one overlay are equal exactly when their
    (src_id, dst_id) match and, if the overlay is a multigraph, their
    ekey values match too; the comparison always answers; and its answer
    does not involve the overlay ids: moving both handles to any
    overlays of the same kind leaves it unchanged. *)
Theorem eq_same_overlay anm a b g :
  overlay_id a = overlay_id b ->
  overlay_nx_graphs anm !! overlay_id a = Some g ->
  (__eq__ anm a (OpEdge b) = Ok true <->
     src_id a = src_id b /\ dst_id a = dst_id b /\
     (nx_is_multigraph g = true -> ekey a = ekey b))
  /\ (exists r, __eq__ anm a (OpEdge b) = Ok r)
  /\ (forall ov1 ov2 g1 g2,
        overlay_nx_graphs anm !! ov1 = Some g1 ->
        overlay_nx_graphs anm !! ov2 = Some g2 ->
        nx_is_multigraph g1 = nx_is_multigraph g ->
        nx_is_multigraph g2 = nx_is_multigraph g ->
        __eq__ anm (mk_edge ov1 (src_id a) (dst_id a) (ekey a))
               (OpEdge (mk_edge ov2 (src_id b) (dst_id b) (ekey b)))
        = __eq__ anm a (OpEdge b)).
Proof.
  intros Hov Hg.
  assert (Ha : _graph anm a = Ok g) by (by apply graph_lookup).
  assert (Hb : _graph anm b = Ok g) by (apply graph_lookup; by rewrite <- Hov).
  rewrite (eq_handles _ _ _ _ _ Ha Hb).
  split; [|split].
  - destruct (nx_is_multigraph g); simpl.
    + split.
      * intros [= H]. apply triple_eq_iff in H. tauto.
      * intros (? & ? & ?). f_equal. apply triple_eq_iff. auto.
    + split.
      * intros [= H]. apply pair_eq_iff in H.
        destruct H; repeat split; auto; discriminate.
      * intros (? & ? & _). f_equal. apply pair_eq_iff. auto.
  - eexists; reflexivity.
  - intros ov1 ov2 g1 g2 H1 H2 Hm1 Hm2.
    rewrite (eq_handles anm (mk_edge ov1 _ _ _) (mk_edge ov2 _ _ _) g1 g2)
      by (by apply graph_lookup).
    simpl. rewrite Hm1, Hm2. reflexivity.
Qed.

Lemma eq_same_overlay_witness :
  __eq__ sample_anm e0 (OpEdge e0) = Ok true /\
  __eq__ sample_anm e0 (OpEdge e1) = Ok false.
Proof.
  assert (Hov : overlay_id e0 = overlay_id e1) by reflexivity.
  assert (Hg : overlay_nx_graphs sample_anm !! overlay_id e0 = Some phy2_graph)
    by reflexivity.
  split.
  - apply (proj1 (eq_same_overlay sample_anm e0 e0 phy2_graph eq_refl Hg)).
    repeat split; reflexivity.
  - destruct (proj1 (proj2 (eq_same_overlay sample_anm e0 e1 phy2_graph Hov Hg)))
      as [r Hr].
    rewrite Hr. destruct r; [|reflexivity].
    apply (proj1 (eq_same_overlay sample_anm e0 e1 phy2_graph Hov Hg)) in Hr.
    destruct Hr as (_ & _ & Hk). specialize (Hk eq_refl). discriminate Hk.
Defined.

(** C2. The hash of a handle depends on (src_id, dst_id) only: handles
    that agree on both hash alike whatever their ekey and overlay, and
    that includes parallel multigraph edges, which are not equal. *)
Theorem hash_src_dst_only (py_hash : list atom -> Z) a b :
  src_id a = src_id b -> dst_id a = dst_id b ->
  __hash__ py_hash a = __hash__ py_hash b
  /\ (forall anm ga gb,
        _graph anm a = Ok ga -> _graph anm b = Ok gb ->
        nx_is_multigraph ga = true -> nx_is_multigraph gb = true ->
        ekey a <> ekey b ->
        __eq__ anm a (OpEdge b) = Ok false).
Proof.
  intros Hs Hd. split.
  - unfold __hash__, __key. rewrite Hs, Hd. reflexivity.
  - intros anm ga gb Ha Hb Hma Hmb Hk.
    rewrite (eq_handles _ _ _ _ _ Ha Hb), Hma, Hmb. simpl. f_equal.
    apply bool_decide_eq_false. intros [= _ _ ?]. contradiction.
Qed.

Lemma hash_src_dst_only_witness :
  __hash__ sample_hash e0 = __hash__ sample_hash e1 /\
  __eq__ sample_anm e0 (OpEdge e1) = Ok false.
Proof.
  destruct (hash_src_dst_only sample_hash e0 e1 eq_refl eq_refl) as [Hh Hne].
  split; [exact Hh|].
  apply (Hne sample_anm phy2_graph phy2_graph); try reflexivity.
  discriminate.
Defined.

(** ** Equality with plain data *)

Lemma items_eq_length l vs :
  items_eq l vs = true -> List.length vs = List.length l.
Proof.
  revert vs. induction l as [|a l IH]; intros [|v vs]; simpl; try discriminate.
  - reflexivity.
  - intros H. apply andb_true_iff in H as [_ H]. f_equal. auto.
Qed.

Lemma tuple_eq_val_len l v :
  tuple_eq_val l v = true -> py_len v = Some (List.length l).
Proof.
  destruct v; simpl; try discriminate.
  intros H. f_equal. by apply items_eq_length.
Qed.

Lemma pair_eq_unsupported a b v :
  unsupported_shape v = true -> tuple_eq_val [a; b] v = false.
Proof.
  intros Hu. destruct (tuple_eq_val [a; b] v) eqn:E; [|reflexivity].
  destruct v; unfold tuple_eq_val in E; try discriminate E.
  apply items_eq_length in E. simpl in Hu, E. rewrite E in Hu.
  discriminate Hu.
Qed.

(** C7, as stated, fails: a handle of a simple graph compared with the
    integer 5 answers false and raises nothing. *)
Lemma eq_unsupported_counterexample :
  ~ (forall anm self v g,
       _graph anm self = Ok g -> unsupported_shape v = true ->
       __eq__ anm self (OpVal v) = Raise TypeError).
Proof.
  intros H.
  specialize (H sample_anm e_phy (VAtom (AInt 5)) phy_graph eq_refl eq_refl).
  vm_compute in H. discriminate H.
Qed.

(** C7, amended.  Compared with plain data, a handle of a simple graph
    never raises: the answer is that of comparing (src_id, dst_id) with
    the value, hence false for a value of unsupported shape.  A handle
    of a multigraph raises TypeError exactly for a value without a
    length; a value of length 2 is compared with (src_id, dst_id), one
    of length 3 with (src_id, dst_id, ekey), and a sized value of any
    other length is answered false. *)
Theorem eq_plain_data anm self v g :
  _graph anm self = Ok g ->
  (nx_is_multigraph g = false ->
     __eq__ anm self (OpVal v) = Ok (tuple_eq_val [src_id self; dst_id self] v)
     /\ (unsupported_shape v = true -> __eq__ anm self (OpVal v) = Ok false))
  /\ (nx_is_multigraph g = true ->
        (py_len v = None -> __eq__ anm self (OpVal v) = Raise TypeError)
        /\ (forall n, py_len v = Some n -> n <> 2%nat -> n <> 3%nat ->
              __eq__ anm self (OpVal v) = Ok false)
        /\ (py_len v = Some 2%nat ->
              __eq__ anm self (OpVal v)
              = Ok (tuple_eq_val [src_id self; dst_id self] v))
        /\ (py_len v = Some 3%nat ->
              __eq__ anm self (OpVal v)
              = Ok (tuple_eq_val [src_id self; dst_id self; ekey self] v))
        /\ (forall x, __eq__ anm self (OpVal v) = Raise x ->
              x = TypeError /\ py_len v = None)).
Proof.
  intros Hg. unfold __eq__. rewrite (is_multigraph_of_graph _ _ _ Hg). simpl.
  split; intros ->.
  - split; [reflexivity|]. intros Hu. simpl. f_equal.
    by apply pair_eq_unsupported.
  - split; [|split; [|split; [|split]]].
    + intros Hl. simpl. rewrite Hl. reflexivity.
    + intros n Hl H2 H3. simpl. rewrite Hl.
      destruct n as [|[|[|[|n]]]]; try congruence; simpl; f_equal.
      all: destruct (tuple_eq_val _ v) eqn:E; [|reflexivity].
      all: apply tuple_eq_val_len in E; rewrite Hl in E; discriminate E.
    + intros Hl. simpl. rewrite Hl. reflexivity.
    + intros Hl. simpl. rewrite Hl. reflexivity.
    + intros x. simpl. destruct (py_len v) as [[|[|[|[|n]]]]|]; simpl;
        try discriminate.
      intros [= <-]. split; reflexivity.
Qed.

Lemma eq_plain_data_witness :
  __eq__ sample_anm e_phy (OpVal (VAtom (AInt 5))) = Ok false /\
  __eq__ sample_anm e0 (OpVal (VAtom (AInt 5))) = Raise TypeError /\
  __eq__ sample_anm e0 (OpVal (VAtom (AStr "ABCD"))) = Ok false /\
  __eq__ sample_anm e0 (OpVal (VAtom (AStr "AB"))) = Ok false /\
  __eq__ sample_anm e0 (OpVal (VList [VNone; VNone; VNone])) = Ok false.
Proof.
  split; [|split; [|split; [|split]]].
  - apply (proj1 (eq_plain_data sample_anm e_phy (VAtom (AInt 5)) phy_graph
                    eq_refl)); reflexivity.
  - apply (proj1 (proj2 (eq_plain_data sample_anm e0 (VAtom (AInt 5))
                           phy2_graph eq_refl) eq_refl)).
    reflexivity.
  - apply (proj1 (proj2 (proj2 (eq_plain_data sample_anm e0
                                  (VAtom (AStr "ABCD")) phy2_graph eq_refl)
                           eq_refl)) 4%nat);
      [reflexivity | discriminate | discriminate].
  - rewrite (proj1 (proj2 (proj2 (proj2 (eq_plain_data sample_anm e0
                                           (VAtom (AStr "AB")) phy2_graph
                                           eq_refl) eq_refl)))
               eq_refl).
    reflexivity.
  - rewrite (proj1 (proj2 (proj2 (proj2 (proj2
               (eq_plain_data sample_anm e0 (VList [VNone; VNone; VNone])
                  phy2_graph eq_refl) eq_refl))))
               eq_refl).
    reflexivity.
Defined.

(** ** Ordering *)

Lemma atom_cmp_eq a b : atom_cmp a b = Eq <-> a = b.
Proof.
  destruct a as [x|s], b as [y|t]; simpl.
  - rewrite Z.compare_eq_iff. split; congruence.
  - split; discriminate.
  - split; discriminate.
  - rewrite String_as_OT.cmp_eq. split; congruence.
Qed.

Lemma atom_cmp_refl a : atom_cmp a a = Eq.
Proof. by apply atom_cmp_eq. Qed.

Lemma atom_cmp_antisym a b : atom_cmp a b = CompOpp (atom_cmp b a).
Proof.
  destruct a as [x|s], b as [y|t]; simpl; try reflexivity.
  - apply Z.compare_antisym.
  - apply String_as_OT.cmp_antisym.
Qed.

Lemma atom_lt_trans a b c : atom_lt a b -> atom_lt b c -> atom_lt a c.
Proof.
  unfold atom_lt.
  destruct a as [x|s], b as [y|t], c as [z|u]; simpl; try discriminate; auto.
  - rewrite !Z.compare_lt_iff. lia.
  - rewrite !String_as_OT.cmp_lt. apply String_as_OT.lt_trans.
Qed.

Lemma tuple_cmp_eq l1 l2 : tuple_cmp l1 l2 = Eq <-> l1 = l2.
Proof.
  revert l2. induction l1 as [|a l1 IH]; intros [|b l2]; simpl;
    try (split; discriminate); [tauto|].
  destruct (atom_cmp a b) eqn:E.
  - apply atom_cmp_eq in E as ->. rewrite IH. split; congruence.
  - split; [discriminate|]. intros [= -> _].
    rewrite atom_cmp_refl in E. discriminate E.
  - split; [discriminate|]. intros [= -> _].
    rewrite atom_cmp_refl in E. discriminate E.
Qed.

Lemma tuple_cmp_antisym l1 l2 : tuple_cmp l1 l2 = CompOpp (tuple_cmp l2 l1).
Proof.
  revert l2. induction l1 as [|a l1 IH]; intros [|b l2]; simpl; try reflexivity.
  rewrite (atom_cmp_antisym b a).
  destruct (atom_cmp a b); simpl; auto.
Qed.

Lemma tuple_cmp_trans l1 l2 l3 :
  tuple_cmp l1 l2 = Lt -> tuple_cmp l2 l3 = Lt -> tuple_cmp l1 l3 = Lt.
Proof.
  revert l2 l3.
  induction l1 as [|a l1 IH]; intros [|b l2] [|c l3]; simpl;
    try discriminate; auto.
  destruct (atom_cmp a b) eqn:Eab; try discriminate.
  - apply atom_cmp_eq in Eab as ->.
    destruct (atom_cmp b c); try discriminate; eauto.
  - intros _. destruct (atom_cmp b c) eqn:Ebc; try discriminate.
    + apply atom_cmp_eq in Ebc as <-. rewrite Eab. auto.
    + intros _. by rewrite (atom_lt_trans _ _ _ Eab Ebc).
Qed.

Lemma tuple_lt_trans l1 l2 l3 :
  tuple_lt l1 l2 = true -> tuple_lt l2 l3 = true -> tuple_lt l1 l3 = true.
Proof.
  unfold tuple_lt. intros H1 H2.
  rewrite (tuple_cmp_trans l1 l2 l3); [reflexivity| |].
  - destruct (tuple_cmp l1 l2); congruence.
  - destruct (tuple_cmp l2 l3); congruence.
Qed.

Lemma tuple_lt_irrefl l : tuple_lt l l = false.
Proof. unfold tuple_lt. by rewrite (proj2 (tuple_cmp_eq l l) eq_refl). Qed.

Lemma tuple_lt_total l1 l2 :
  tuple_lt l1 l2 = true \/ l1 = l2 \/ tuple_lt l2 l1 = true.
Proof.
  unfold tuple_lt. rewrite (tuple_cmp_antisym l2 l1).
  destruct (tuple_cmp l1 l2) eqn:E; simpl; auto.
  apply tuple_cmp_eq in E. auto.
Qed.

(** Lexicographic reading of the comparison of pairs and triples. *)
Lemma tuple_lt_pair a1 a2 b1 b2 :
  tuple_lt [a1; a2] [b1; b2] = true <->
  atom_lt a1 b1 \/ (a1 = b1 /\ atom_lt a2 b2).
Proof.
  unfold tuple_lt, atom_lt. simpl.
  destruct (atom_cmp a1 b1) eqn:E1.
  - apply atom_cmp_eq in E1 as ->.
    destruct (atom_cmp a2 b2); split; try discriminate; intuition congruence.
  - split; auto.
  - split; [discriminate|]. intros [H|[-> _]]; [discriminate H|].
    rewrite atom_cmp_refl in E1. discriminate E1.
Qed.

Lemma tuple_lt_triple a1 a2 a3 b1 b2 b3 :
  tuple_lt [a1; a2; a3] [b1; b2; b3] = true <->
  atom_lt a1 b1 \/
  (a1 = b1 /\ (atom_lt a2 b2 \/ (a2 = b2 /\ atom_lt a3 b3))).
Proof.
  unfold tuple_lt, atom_lt. simpl.
  destruct (atom_cmp a1 b1) eqn:E1.
  - apply atom_cmp_eq in E1 as ->.
    destruct (atom_cmp a2 b2) eqn:E2.
    + apply atom_cmp_eq in E2 as ->.
      destruct (atom_cmp a3 b3); split; try discriminate; intuition congruence.
    + split; auto.
    + split; [discriminate|].
      intros [H|[_ [H|[-> _]]]]; try discriminate H.
      rewrite atom_cmp_refl in E2. discriminate E2.
  - split; auto.
  - split; [discriminate|]. intros [H|[-> _]]; [discriminate H|].
    rewrite atom_cmp_refl in E1. discriminate E1.
Qed.

(** The value of [a < b] between two handles whose overlays exist. *)
Lemma lt_handles anm a b ga gb :
  _graph anm a = Ok ga -> _graph anm b = Ok gb ->
  __lt__ anm a (OpEdge b) =
    Ok (tuple_lt (order_key (nx_is_multigraph ga && nx_is_multigraph gb) a)
                 (order_key (nx_is_multigraph ga && nx_is_multigraph gb) b)).
Proof.
  intros Ha Hb. unfold __lt__.
  rewrite (is_multigraph_of_graph _ _ _ Ha). simpl.
  destruct (nx_is_multigraph ga); simpl; [|reflexivity].
  rewrite (is_multigraph_of_graph _ _ _ Hb). simpl.
  destruct (nx_is_multigraph gb); reflexivity.
Qed.

Lemma order_key_inj m a b :
  order_key m a = order_key m b ->
  src_id a = src_id b /\ dst_id a = dst_id b /\ (m = true -> ekey a = ekey b).
Proof.
  destruct m; simpl; intros [= ? ?]; repeat split; auto; discriminate.
Qed.

(** C6. [<] compares node identifiers lexicographically: on
    (src.node_id, dst.node_id, ekey) when both handles are multigraph
    edges, on (src.node_id, dst.node_id) otherwise.  Among handles of
    one kind it is a strict total order: transitive, irreflexive, and
    any two handles are ordered one way or the other or are equal. *)
Theorem lt_strict_total_order anm a b c ga gb gc :
  _graph anm a = Ok ga -> _graph anm b = Ok gb -> _graph anm c = Ok gc ->
  (__lt__ anm a (OpEdge b) = Ok true <->
     atom_lt (src_id a) (src_id b) \/
     (src_id a = src_id b /\
      (atom_lt (dst_id a) (dst_id b) \/
       (dst_id a = dst_id b /\
        nx_is_multigraph ga && nx_is_multigraph gb = true /\
        atom_lt (ekey a) (ekey b)))))
  /\ (nx_is_multigraph ga = nx_is_multigraph gb ->
      nx_is_multigraph gb = nx_is_multigraph gc ->
      (__lt__ anm a (OpEdge b) = Ok true ->
       __lt__ anm b (OpEdge c) = Ok true ->
       __lt__ anm a (OpEdge c) = Ok true)
      /\ __lt__ anm a (OpEdge a) = Ok false
      /\ (__lt__ anm a (OpEdge b) = Ok true \/
          __eq__ anm a (OpEdge b) = Ok true \/
          __lt__ anm b (OpEdge a) = Ok true)).
Proof.
  intros Ha Hb Hc. split.
  - rewrite (lt_handles _ _ _ _ _ Ha Hb).
    destruct (nx_is_multigraph ga && nx_is_multigraph gb); simpl.
    + split.
      * intros [= H]. apply tuple_lt_triple in H. tauto.
      * intros H. f_equal. apply tuple_lt_triple. tauto.
    + split.
      * intros [= H]. apply tuple_lt_pair in H. tauto.
      * intros H. f_equal. apply tuple_lt_pair.
        destruct H as [H|[? [H|(_ & ? & _)]]]; auto; discriminate.
  - intros Hab Hbc.
    rewrite (lt_handles _ _ _ _ _ Ha Hb), (lt_handles _ _ _ _ _ Hb Hc),
      (lt_handles _ _ _ _ _ Ha Hc), (lt_handles _ _ _ _ _ Ha Ha),
      (lt_handles _ _ _ _ _ Hb Ha), (eq_handles _ _ _ _ _ Ha Hb).
    rewrite <- Hbc, <- Hab, !andb_diag.
    set (m := nx_is_multigraph ga).
    split; [|split].
    + intros [= H1] [= H2]. f_equal. eapply tuple_lt_trans; eauto.
    + f_equal. apply tuple_lt_irrefl.
    + destruct (tuple_lt_total (order_key m a) (order_key m b))
        as [H|[H|H]].
      * left. by f_equal.
      * right; left. f_equal.
        apply order_key_inj in H as (? & ? & Hk).
        destruct m; [apply triple_eq_iff | apply pair_eq_iff]; auto.
      * right; right. by f_equal.
Qed.

Lemma lt_strict_total_order_witness :
  __lt__ sample_anm e0 (OpEdge e1) = Ok true /\
  __lt__ sample_anm e0 (OpEdge e0) = Ok false.
Proof.
  pose proof (lt_strict_total_order sample_anm e0 e1 e1 phy2_graph phy2_graph
                phy2_graph eq_refl eq_refl eq_refl) as [Hlex Hord].
  split.
  - apply Hlex. right. split; [reflexivity|]. right.
    repeat split; reflexivity.
  - apply (Hord eq_refl eq_refl).
Defined.

(** ** Existence *)

Lemma nx_getitem2_nbr {X} (adj : gmap atom (gmap atom X)) u v :
  nx_getitem2 adj u v =
  match nbr adj u v with Some x => Ok x | None => Raise KeyError end.
Proof.
  unfold nx_getitem2, nbr. destruct (adj !! u) as [n|]; simpl; [|reflexivity].
  destruct (n !! v); reflexivity.
Qed.

Lemma nbr_alter_same {X} (f : gmap atom X -> gmap atom X) adj u v :
  nbr (alter f u adj) u v = adj !! u ≫= (fun n => f n !! v).
Proof.
  unfold nbr. rewrite lookup_alter_eq. destruct (adj !! u); reflexivity.
Qed.

Lemma nbr_alter_other {X} (f : gmap atom X -> gmap atom X) adj a u v :
  a <> u -> nbr (alter f a adj) u v = nbr adj u v.
Proof. intros Hne. unfold nbr. by rewrite lookup_alter_ne. Qed.

Lemma nbr_del_nbr {X} (adj : gmap atom (gmap atom X)) a b u v :
  nbr adj u v = None -> nbr (del_nbr a b adj) u v = None.
Proof.
  intros H. unfold del_nbr. destruct (decide (a = u)) as [->|Hne].
  - rewrite nbr_alter_same. unfold nbr in H.
    destruct (adj !! u) as [n|]; simpl in *; [|reflexivity].
    destruct (decide (b = v)) as [->|Hb].
    + apply lookup_delete_eq.
    + by rewrite lookup_delete_ne.
  - by rewrite nbr_alter_other.
Qed.

Lemma nbr_del_nbr_same {X} (adj : gmap atom (gmap atom X)) u v :
  nbr (del_nbr u v adj) u v = None.
Proof.
  unfold del_nbr. rewrite nbr_alter_same.
  destruct (adj !! u) as [n|]; simpl; [|reflexivity]. apply lookup_delete_eq.
Qed.

Lemma nbr_del_both {X} dir (adj : gmap atom (gmap atom X)) u v :
  nbr (del_both dir u v adj) u v = None.
Proof.
  unfold del_both. destruct dir.
  - apply nbr_del_nbr_same.
  - apply nbr_del_nbr, nbr_del_nbr_same.
Qed.

Lemma has_edge_graph dir adj u v :
  has_edge (mk_graph dir (Graph adj)) u v None
  = bool_decide (is_Some (nbr adj u v)).
Proof.
  unfold has_edge, nbr. simpl.
  destruct (adj !! u) as [n|]; simpl;
    first [reflexivity | symmetry; apply bool_decide_eq_false; by intros [? ?]].
Qed.

Lemma has_edge_multigraph dir adj u v k :
  has_edge (mk_graph dir (MultiGraph adj)) u v (Some k)
  = bool_decide (is_Some (nbr adj u v ≫= (.!! k))).
Proof.
  unfold has_edge, nbr. simpl.
  destruct (adj !! u) as [n|]; simpl; [destruct (n !! v); simpl|];
    first [reflexivity | symmetry; apply bool_decide_eq_false; by intros [? ?]].
Qed.

(** Removal leaves the kind of the graph alone and makes [has_edge]
    answer false for the edge removed. *)
Lemma remove_edge_has_edge g u v key g' :
  remove_edge g u v key = Some g' ->
  nx_is_multigraph g' = nx_is_multigraph g /\ has_edge g' u v key = false.
Proof.
  destruct g as [dir [adj|adj]]; unfold remove_edge; simpl.
  - destruct key; [discriminate|].
    destruct (has_edge _ u v None); [|discriminate].
    intros [= <-]. split; [reflexivity|].
    rewrite has_edge_graph, nbr_del_both.
    apply bool_decide_eq_false. by intros [? ?].
  - destruct key as [k|]; [|discriminate].
    fold (nbr adj u v).
    destruct (nbr adj u v) as [keys|] eqn:Hn; [|discriminate].
    case_bool_decide; [|discriminate].
    case_bool_decide; intros [= <-]; (split; [reflexivity|]);
      rewrite has_edge_multigraph.
    + rewrite nbr_del_both. apply bool_decide_eq_false. by intros [? ?].
    + assert (Hu : nbr (alter (<[v := delete k keys]>) u adj) u v
                   = Some (delete k keys)).
      { rewrite nbr_alter_same. unfold nbr in Hn.
        destruct (adj !! u) as [n|]; simpl in *; [|discriminate].
        apply lookup_insert_eq. }
      assert (Hk : (Some (delete k keys) ≫= (.!! k)) = (None : option attr_record)).
      { simpl. apply lookup_delete_eq. }
      apply bool_decide_eq_false. intros [r Hr].
      destruct dir.
      * rewrite Hu, Hk in Hr. discriminate Hr.
      * destruct (decide (v = u)) as [->|Hne].
        -- rewrite nbr_alter_same, lookup_alter_eq in Hr.
           destruct (adj !! u) as [n|]; simpl in Hr; [|discriminate Hr].
           rewrite lookup_insert_eq in Hr. simpl in Hr.
           rewrite lookup_delete_eq in Hr. discriminate Hr.
        -- rewrite nbr_alter_other in Hr by done.
           rewrite Hu, Hk in Hr. discriminate Hr.
Qed.

Lemma nonzero_of_graph anm e g :
  _graph anm e = Ok g ->
  __nonzero__ anm e = Ok (has_edge g (src_id e) (dst_id e) (edge_key g e)).
Proof.
  intros Hg. unfold __nonzero__, edge_key.
  rewrite (is_multigraph_of_graph _ _ _ Hg), Hg. simpl.
  destruct (nx_is_multigraph g); reflexivity.
Qed.

Lemma nonzero_after_remove anm e g g' :
  overlay_nx_graphs anm !! overlay_id e = Some g ->
  remove_edge g (src_id e) (dst_id e) (edge_key g e) = Some g' ->
  __nonzero__ (with_overlay anm (overlay_id e) g') e = Ok false.
Proof.
  intros Hg Hrm.
  apply remove_edge_has_edge in Hrm as [Hm Hh].
  assert (Hg' : _graph (with_overlay anm (overlay_id e) g') e = Ok g').
  { apply graph_lookup. simpl. apply lookup_insert_eq. }
  rewrite (nonzero_of_graph _ _ _ Hg'). f_equal.
  unfold edge_key in *. rewrite Hm. exact Hh.
Qed.

(** C5. The truth value of a handle is true exactly when its overlay
    reports [has_edge] for (src_id, dst_id), the ekey being passed along
    in a multigraph; once the edge has been removed from the overlay it
    is false. *)
Theorem nonzero_has_edge anm e :
  (__nonzero__ anm e = Ok true <->
     exists g, overlay_nx_graphs anm !! overlay_id e = Some g /\
               has_edge g (src_id e) (dst_id e) (edge_key g e) = true)
  /\ (forall g g',
        overlay_nx_graphs anm !! overlay_id e = Some g ->
        remove_edge g (src_id e) (dst_id e) (edge_key g e) = Some g' ->
        __nonzero__ (with_overlay anm (overlay_id e) g') e = Ok false).
Proof.
  split.
  - split.
    + intros H. destruct (_graph anm e) as [g|] eqn:Hg.
      * rewrite (nonzero_of_graph _ _ _ Hg) in H. injection H as H.
        exists g. split; [by apply graph_lookup | exact H].
      * unfold __nonzero__, is_multigraph in H. rewrite Hg in H.
        discriminate H.
    + intros (g & Hg & H). apply graph_lookup in Hg.
      rewrite (nonzero_of_graph _ _ _ Hg). by f_equal.
  - intros g g'. apply nonzero_after_remove.
Qed.

Lemma nonzero_has_edge_witness :
  __nonzero__ sample_anm e_phy = Ok true /\
  exists g', remove_edge phy_graph node_A node_B None = Some g' /\
             __nonzero__ (with_overlay sample_anm (AStr "phy") g') e_phy
             = Ok false.
Proof.
  split.
  - apply (proj1 (nonzero_has_edge sample_anm e_phy)).
    exists phy_graph. split; reflexivity.
  - eexists. split; [reflexivity|].
    apply (proj2 (nonzero_has_edge sample_anm e_phy) phy_graph _ eq_refl).
    reflexivity.
Defined.

(** ** Attribute lookup *)

(** Decide the comparisons of a key with the literal names; a branch
    that identifies the key contradicts the hypothesis [H] that no
    attribute has that name. *)
Ltac key_cases H :=
  repeat case_bool_decide; subst; try reflexivity;
  try (exfalso; apply H; unfold own_names; rewrite !elem_of_app; by auto);
  try (exfalso; apply H; apply (bool_decide_unpack _); vm_compute; exact I).

Lemma getattr_unknown inherited anm e key :
  names_attribute inherited key = false ->
  getattr inherited anm e key = Raise AttributeError.
Proof.
  unfold names_attribute. intros H. apply orb_false_iff in H as [H Hi].
  apply bool_decide_eq_false in H.
  unfold getattr, static_attr, field. rewrite Hi. key_cases H.
Qed.

Lemma get_unknown inherited anm e key :
  names_attribute inherited key = false ->
  get inherited anm e key = data_get anm e key.
Proof.
  intros H. unfold get, hasattr. by rewrite (getattr_unknown _ _ _ _ H).
Qed.

(** ** The attribute record *)

Lemma data_of_graph anm e g :
  _graph anm e = Ok g ->
  _data anm e =
  match record_at g e with Some r => Ok r | None => Raise KeyError end.
Proof.
  intros Hg. unfold _data, record_at. rewrite Hg. simpl.
  destruct (adjacency g) as [adj|adj]; rewrite nx_getitem2_nbr;
    destruct (nbr adj (src_id e) (dst_id e)); simpl; reflexivity.
Qed.

Lemma data_raises_KeyError anm e x : _data anm e = Raise x -> x = KeyError.
Proof.
  destruct (_graph anm e) as [g|x'] eqn:Hg.
  - rewrite (data_of_graph _ _ _ Hg).
    destruct (record_at g e); [discriminate | congruence].
  - unfold _data. rewrite Hg. simpl. unfold _graph in Hg.
    destruct (overlay_nx_graphs anm !! overlay_id e); congruence.
Qed.

Lemma has_edge_record_at g e :
  has_edge g (src_id e) (dst_id e) (edge_key g e)
  = bool_decide (is_Some (record_at g e)).
Proof.
  destruct g as [dir [adj|adj]]; unfold edge_key, record_at; simpl.
  - apply has_edge_graph.
  - apply has_edge_multigraph.
Qed.

(** The edge exists exactly when its record can be located. *)
Lemma nonzero_data anm e :
  __nonzero__ anm e = Ok true <-> exists r, _data anm e = Ok r.
Proof.
  destruct (_graph anm e) as [g|x] eqn:Hg.
  - rewrite (nonzero_of_graph _ _ _ Hg), (data_of_graph _ _ _ Hg),
      has_edge_record_at.
    destruct (record_at g e) as [r|]; split.
    + eauto.
    + intros _. f_equal; apply bool_decide_eq_true; eauto.
    + intros H.
      assert (Hb : bool_decide (is_Some (@None attr_record)) = true)
        by congruence.
      apply bool_decide_eq_true in Hb. by destruct Hb.
    + intros [? ?]. discriminate.
  - unfold __nonzero__, is_multigraph, _data. rewrite Hg. simpl.
    split; [discriminate | intros [? ?]; discriminate].
Qed.

Lemma nonzero_false_data anm e :
  __nonzero__ anm e = Ok false -> _data anm e = Raise KeyError.
Proof.
  intros H. destruct (_data anm e) as [r|x] eqn:Hd.
  - assert (Ht : __nonzero__ anm e = Ok true) by (apply nonzero_data; eauto).
    congruence.
  - f_equal. by apply data_raises_KeyError in Hd.
Qed.

Lemma record_at_alter f g e :
  record_at (alter_record f (src_id e) (dst_id e) (ekey e) g) e
  = f <$> record_at g e.
Proof.
  destruct g as [dir [adj|adj]]; unfold alter_record, record_at; simpl.
  - assert (H1 : forall a : gmap atom (gmap atom attr_record),
               nbr (alter (alter f (dst_id e)) (src_id e) a) (src_id e) (dst_id e)
               = f <$> nbr a (src_id e) (dst_id e)).
    { intros a. rewrite nbr_alter_same. unfold nbr.
      destruct (a !! src_id e) as [n|]; simpl; [|reflexivity].
      apply lookup_alter_eq. }
    destruct dir; simpl; [apply H1|].
    case_bool_decide as Huv; simpl; [apply H1|].
    rewrite nbr_alter_other by congruence. apply H1.
  - assert (H1 : forall a : gmap atom (gmap atom (gmap atom attr_record)),
               nbr (alter (alter (alter f (ekey e)) (dst_id e)) (src_id e) a)
                   (src_id e) (dst_id e) ≫= (.!! ekey e)
               = f <$> (nbr a (src_id e) (dst_id e) ≫= (.!! ekey e))).
    { intros a. rewrite nbr_alter_same. unfold nbr.
      destruct (a !! src_id e) as [n|]; simpl; [|reflexivity].
      rewrite lookup_alter_eq.
      destruct (n !! dst_id e) as [ks|]; simpl; [|reflexivity].
      apply lookup_alter_eq. }
    destruct dir; simpl; [apply H1|].
    case_bool_decide as Huv; simpl; [apply H1|].
    rewrite nbr_alter_other by congruence. apply H1.
Qed.

(** [self._data[key] = val] succeeds on an existing edge, and the record
    found afterwards is the old one with [key] bound to [val]. *)
Lemma data_setitem_ok anm e key val r :
  _data anm e = Ok r ->
  exists anm', data_setitem anm e key val = Ok anm' /\
               _data anm' e = Ok (<[key := val]> r) /\
               (forall g, _graph anm e = Ok g ->
                          exists g', _graph anm' e = Ok g' /\
                                     nx_is_multigraph g' = nx_is_multigraph g).
Proof.
  intros Hd. unfold data_setitem. rewrite Hd. simpl.
  destruct (_graph anm e) as [g|x] eqn:Hg.
  2:{ unfold _data in Hd. rewrite Hg in Hd. discriminate Hd. }
  simpl. eexists. split; [reflexivity|].
  set (g' := alter_record _ _ _ _ g).
  assert (Hg' : _graph (mk_anm (<[overlay_id e := g']> (overlay_nx_graphs anm))) e
                = Ok g').
  { apply graph_lookup. simpl. apply lookup_insert_eq. }
  split.
  - rewrite (data_of_graph _ _ _ Hg'). unfold g'. rewrite record_at_alter.
    rewrite (data_of_graph _ _ _ Hg) in Hd.
    destruct (record_at g e); [|discriminate]. injection Hd as ->. reflexivity.
  - intros g0 [= <-]. exists g'. split; [exact Hg'|].
    unfold g', alter_record, nx_is_multigraph.
    destruct (adjacency g); reflexivity.
Qed.

Lemma data_setitem_raises anm e key val x :
  _data anm e = Raise x -> data_setitem anm e key val = Raise x.
Proof. intros Hd. unfold data_setitem. rewrite Hd. reflexivity. Qed.

(** ** Reading and writing attributes *)

Lemma names_attribute_ports inherited :
  inherited "_ports" = false -> names_attribute inherited "_ports" = false.
Proof. unfold names_attribute. intros ->. reflexivity. Qed.

Lemma static_attr_unknown inherited e key :
  names_attribute inherited key = false -> static_attr inherited e key = None.
Proof.
  unfold names_attribute. intros H. apply orb_false_iff in H as [H Hi].
  apply bool_decide_eq_false in H.
  unfold static_attr, field. rewrite Hi. key_cases H.
Qed.

Lemma get_plain_unknown inherited anm e key :
  names_attribute inherited key = false ->
  get_plain inherited anm e key = data_get anm e key.
Proof.
  intros H. unfold get_plain. by rewrite (static_attr_unknown _ _ _ H).
Qed.

(** The call [self.get('_ports')] inside the property getters is [get]
    itself. *)
Lemma get_plain_eq inherited anm e :
  get inherited anm e "_ports" = get_plain inherited anm e "_ports".
Proof.
  destruct (inherited "_ports") eqn:Hi.
  - unfold get, hasattr, getattr, get_plain, static_attr. simpl.
    rewrite Hi. reflexivity.
  - rewrite get_unknown, get_plain_unknown
      by (by apply names_attribute_ports). reflexivity.
Qed.

(** C9, as stated, fails for a key that is no computed property and
    yet names an attribute of the handle: ["ekey"] is a plain field, so
    on the edge (A, B) of overlay ["phy"], whose record does not set
    it, [get] returns the field, 0, and not [None]; and on a handle
    whose record cannot be located [get] still returns the field and
    raises nothing. *)
Lemma get_missing_key_counterexample :
  ~ (forall inherited anm e key r,
       key ∉ property_names ->
       _data anm e = Ok r -> r !! key = None ->
       get inherited anm e key = Ok (OVal VNone))
  /\ ~ (forall inherited anm e key x,
          key ∉ property_names ->
          _data anm e = Raise x ->
          get inherited anm e key = Raise KeyError).
Proof.
  assert (Hk : "ekey" ∉ property_names).
  { apply (bool_decide_unpack _). vm_compute. exact I. }
  split; intros H.
  - specialize (H sample_inherited sample_anm e_phy "ekey" phy_record Hk
                  eq_refl eq_refl).
    vm_compute in H. discriminate H.
  - specialize (H sample_inherited sample_anm e_lost "ekey" KeyError Hk
                  eq_refl).
    vm_compute in H. discriminate H.
Qed.

(** C9, amended. For a key that names no attribute of the handle (no
    property, no field, no method, nothing inherited): on an existing
    edge [get] returns the stored value, [None] when the key is unset,
    and raises nothing; when the record of the edge cannot be located,
    as after the removal of the edge, [get] raises KeyError. *)
Theorem get_missing_key inherited anm e key :
  names_attribute inherited key = false ->
  (__nonzero__ anm e = Ok true ->
     exists r, _data anm e = Ok r /\
       get inherited anm e key = Ok (OVal (default VNone (r !! key))) /\
       (r !! key = None -> get inherited anm e key = Ok (OVal VNone)))
  /\ (forall x, _data anm e = Raise x ->
        get inherited anm e key = Raise KeyError)
  /\ (forall g g',
        overlay_nx_graphs anm !! overlay_id e = Some g ->
        remove_edge g (src_id e) (dst_id e) (edge_key g e) = Some g' ->
        get inherited (with_overlay anm (overlay_id e) g') e key
        = Raise KeyError).
Proof.
  intros Hk. split; [|split].
  - intros Hnz. apply nonzero_data in Hnz as [r Hr]. exists r.
    rewrite (get_unknown _ _ _ _ Hk). unfold data_get. rewrite Hr. simpl.
    split; [reflexivity|]. split; [reflexivity|]. by intros ->.
  - intros x Hx. rewrite (get_unknown _ _ _ _ Hk). unfold data_get.
    rewrite Hx. simpl. f_equal. by apply data_raises_KeyError in Hx.
  - intros g g' Hg Hrm. rewrite (get_unknown _ _ _ _ Hk). unfold data_get.
    rewrite nonzero_false_data; [reflexivity|].
    by apply (nonzero_after_remove anm e g g').
Qed.

Lemma get_missing_key_witness :
  get sample_inherited sample_anm e_phy "bandwidth" = Ok (OVal VNone) /\
  exists g', remove_edge phy_graph node_A node_B None = Some g' /\
             get sample_inherited (with_overlay sample_anm (AStr "phy") g')
                 e_phy "bandwidth" = Raise KeyError.
Proof.
  pose proof (get_missing_key sample_inherited sample_anm e_phy "bandwidth"
                eq_refl) as (Hget & _ & Hrm).
  split.
  - destruct (Hget eq_refl) as (r & Hr & _ & Hnone).
    apply Hnone. injection Hr as <-. reflexivity.
  - eexists. split; [reflexivity|].
    apply (Hrm phy_graph _ eq_refl). reflexivity.
Defined.

(** C3. On an existing edge, [set] followed by [get] returns the value
    written, for every key that names no attribute of the handle.  For
    the reserved key ["raw_interfaces"], [set] goes through the property
    setter, which binds ["_ports"] in the record, and then the closing
    assignment of [set] also binds the reserved key itself in the
    record. *)
Theorem set_then_get inherited anm e key val :
  __nonzero__ anm e = Ok true ->
  (names_attribute inherited key = false ->
     exists anm', set anm e key val = Ok anm' /\
                  get inherited anm' e key = Ok (OVal val))
  /\ (exists r anm',
        _data anm e = Ok r /\
        set anm e "raw_interfaces" val = Ok anm' /\
        _data anm' e
        = Ok (<["raw_interfaces" := val]> (<["_ports" := val]> r))).
Proof.
  intros Hnz. apply nonzero_data in Hnz as [r Hr]. split.
  - intros Hk.
    destruct (data_setitem_ok anm e key val r Hr) as (anm' & Hset & Hd & _).
    exists anm'. split.
    + unfold set. rewrite bool_decide_eq_false_2; [exact Hset|].
      intros ->. unfold names_attribute in Hk.
      apply orb_false_iff in Hk as [Hk _]. vm_compute in Hk. discriminate Hk.
    + rewrite (get_unknown _ _ _ _ Hk). unfold data_get. rewrite Hd. simpl.
      by rewrite lookup_insert_eq.
  - destruct (data_setitem_ok anm e "_ports" val r Hr)
      as (anm1 & Hset1 & Hd1 & _).
    destruct (data_setitem_ok anm1 e "raw_interfaces" val _ Hd1)
      as (anm2 & Hset2 & Hd2 & _).
    exists r, anm2. split; [exact Hr|]. split; [|exact Hd2].
    unfold set, raw_interfaces_setter. simpl. rewrite Hset1. exact Hset2.
Qed.

Lemma set_then_get_witness :
  (exists anm', set sample_anm e_phy "bandwidth" (VAtom (AInt 100)) = Ok anm' /\
                get sample_inherited anm' e_phy "bandwidth"
                = Ok (OVal (VAtom (AInt 100))))
  /\ (exists anm', set sample_anm e_phy "raw_interfaces" (VDict []) = Ok anm' /\
                   _data anm' e_phy
                   = Ok (<["raw_interfaces" := VDict []]>
                           (<["_ports" := VDict []]> phy_record))).
Proof.
  split.
  - apply (proj1 (set_then_get sample_inherited sample_anm e_phy "bandwidth"
                    (VAtom (AInt 100)) eq_refl)).
    reflexivity.
  - destruct (proj2 (set_then_get sample_inherited sample_anm e_phy "bandwidth"
                       (VDict []) eq_refl)) as (r & anm' & Hr & Hset & Hd).
    exists anm'. split; [exact Hset|].
    injection Hr as <-. exact Hd.
Defined.

(** ** Port bindings *)

Lemma get_ports_dict inherited anm e r :
  inherited "_ports" = false -> _data anm e = Ok r ->
  get_plain inherited anm e "_ports"
  = Ok (OVal (default VNone (r !! "_ports"))).
Proof.
  intros Hi Hr.
  rewrite get_plain_unknown by (by apply names_attribute_ports).
  unfold data_get. rewrite Hr. reflexivity.
Qed.

(** C8. With a binding map that has no entry for the source (resp.
    destination) node id, [src_int] (resp. [dst_int]) raises KeyError;
    with an entry, it returns the interface handle built from the
    overlay id, the node id and the bound interface id.  (Without any
    binding map at all the subscription of [None] raises TypeError.) *)
Theorem src_dst_int inherited anm e r :
  inherited "_ports" = false ->
  _data anm e = Ok r ->
  (forall d, r !! "_ports" = Some (VDict d) ->
     (dict_lookup d (src_id e) = None ->
        src_int inherited anm e = Raise KeyError)
     /\ (forall i, dict_lookup d (src_id e) = Some i ->
           src_int inherited anm e
           = Ok (mk_port (overlay_id e) (src_id e) i))
     /\ (dict_lookup d (dst_id e) = None ->
           dst_int inherited anm e = Raise KeyError)
     /\ (forall i, dict_lookup d (dst_id e) = Some i ->
           dst_int inherited anm e
           = Ok (mk_port (overlay_id e) (dst_id e) i)))
  /\ (r !! "_ports" = None ->
        src_int inherited anm e = Raise TypeError
        /\ dst_int inherited anm e = Raise TypeError).
Proof.
  intros Hi Hr. unfold src_int, dst_int.
  rewrite (get_ports_dict _ _ _ _ Hi Hr). split.
  - intros d ->. simpl. repeat split.
    + by intros ->.
    + by intros i ->.
    + by intros ->.
    + by intros i ->.
  - intros ->. split; reflexivity.
Qed.

Lemma src_dst_int_witness :
  src_int sample_inherited sample_anm e_phy
  = Ok (mk_port (AStr "phy") node_A (VAtom (AStr "eth0"))) /\
  dst_int sample_inherited sample_anm e_phy
  = Ok (mk_port (AStr "phy") node_B (VAtom (AStr "eth1"))) /\
  src_int sample_inherited sample_anm (new_edge (AStr "phy") node_B node_A)
  = Ok (mk_port (AStr "phy") node_B (VAtom (AStr "eth1"))) /\
  src_int sample_inherited tagged_anm e_tagged = Raise TypeError.
Proof.
  pose proof (src_dst_int sample_inherited sample_anm e_phy phy_record
                eq_refl eq_refl) as [Hd _].
  destruct (Hd _ eq_refl) as (_ & Hs & _ & Ht).
  split; [apply Hs; reflexivity|]. split; [apply Ht; reflexivity|].
  split.
  - pose proof (src_dst_int sample_inherited sample_anm
                  (new_edge (AStr "phy") node_B node_A) phy_record
                  eq_refl eq_refl) as [Hd' _].
    destruct (Hd' _ eq_refl) as (_ & Hs' & _). apply Hs'. reflexivity.
  - apply (proj2 (src_dst_int sample_inherited tagged_anm e_tagged
                    tagged_record eq_refl eq_refl)).
    reflexivity.
Defined.

(** What [self._ports] can be: nothing, or something inherited; never
    the binding map of the record. *)
Lemma getattr_ports_cases inherited anm e :
  getattr inherited anm e "_ports" = Raise AttributeError \/
  getattr inherited anm e "_ports" = Ok (OInherited e "_ports").
Proof.
  destruct (inherited "_ports") eqn:Hi.
  - right. unfold getattr, static_attr. simpl. rewrite Hi. reflexivity.
  - left. apply getattr_unknown. by apply names_attribute_ports.
Qed.

(** C4.  [bind_interface] assigns into [self._ports]; the handle has no
    attribute of that name unless [AnkElement] provides one, so the
    call raises AttributeError and binds nothing. *)
Theorem bind_interface_raises inherited anm e node interface :
  inherited "_ports" = false ->
  bind_interface inherited anm e node interface = Raise AttributeError.
Proof.
  intros Hi. unfold bind_interface.
  rewrite getattr_unknown by (by apply names_attribute_ports). reflexivity.
Qed.

Lemma bind_interface_raises_witness :
  bind_interface sample_inherited sample_anm e_phy (src e_phy)
    (VAtom (AStr "eth5")) = Raise AttributeError.
Proof. apply bind_interface_raises. reflexivity. Defined.

(** ** Attributes of the handle itself *)

(** C10, as stated, fails for a key that names a property whose getter
    raises: in the overlay ["tagged"] the edge has no port bindings, so
    looking up [src_int] on the handle raises and there is no attribute
    of the handle for [get] to return. *)
Lemma get_own_attribute_counterexample :
  ~ (forall inherited anm e key,
       names_attribute inherited key = true ->
       exists o, getattr inherited anm e key = Ok o /\
                 get inherited anm e key = Ok o).
Proof.
  intros H.
  destruct (H sample_inherited tagged_anm e_tagged "src_int" eq_refl)
    as (o & Hga & _).
  vm_compute in Hga. discriminate Hga.
Qed.

(** C10, amended.  Whenever attribute lookup on the handle succeeds for
    a key, [get] returns what the lookup returns, whatever the record
    holds under that key: so for the identity fields, which every state
    answers, and for every method, which comes back bound to the
    handle.  When the lookup raises, as a property getter may, [get]
    falls back on the record. *)
Theorem get_own_attribute inherited anm e :
  (forall key o,
     getattr inherited anm e key = Ok o -> get inherited anm e key = Ok o)
  /\ get inherited anm e "ekey" = Ok (OVal (VAtom (ekey e)))
  /\ get inherited anm e "src_id" = Ok (OVal (VAtom (src_id e)))
  /\ get inherited anm e "dst_id" = Ok (OVal (VAtom (dst_id e)))
  /\ get inherited anm e "overlay_id" = Ok (OVal (VAtom (overlay_id e)))
  /\ get inherited anm e "anm" = Ok OAnm
  /\ (forall key, key ∈ method_names ->
        get inherited anm e key = Ok (OMethod e key))
  /\ (forall key x,
        getattr inherited anm e key = Raise x ->
        get inherited anm e key = data_get anm e key).
Proof.
  split.
  { intros key o H. unfold get, hasattr. rewrite H. reflexivity. }
  repeat split; try reflexivity.
  - intros key H. unfold method_names in H.
    repeat (apply elem_of_cons in H as [->|H]); try reflexivity.
    by apply elem_of_nil in H.
  - intros key x H. unfold get, hasattr. rewrite H. reflexivity.
Qed.

Lemma get_own_attribute_witness :
  _data tagged_anm e_tagged = Ok tagged_record /\
  tagged_record !! "ekey" = Some (VAtom (AInt 7)) /\
  get sample_inherited tagged_anm e_tagged "ekey" = Ok (OVal (VAtom (AInt 0))) /\
  get sample_inherited tagged_anm e_tagged "dump" = Ok (OMethod e_tagged "dump") /\
  get sample_inherited tagged_anm e_tagged "src_int" = Ok (OVal (VAtom (AInt 5))).
Proof.
  pose proof (get_own_attribute sample_inherited tagged_anm e_tagged)
    as (_ & Hk & _ & _ & _ & _ & Hm & Hr).
  split; [reflexivity|]. split; [reflexivity|]. split; [exact Hk|].
  split.
  - apply Hm. apply (bool_decide_unpack _). vm_compute. exact I.
  - rewrite (Hr "src_int" TypeError); reflexivity.
Defined.

(** * Further properties of the handle *)

(** ** Equality, hash and order together *)

(** X1. Handles that compare equal hash alike, whatever their overlays
    and kinds: [__eq__] always requires (src_id, dst_id) to match, and
    the hash is taken from that pair. *)
Theorem eq_implies_hash (py_hash : list atom -> Z) anm a b :
  __eq__ anm a (OpEdge b) = Ok true ->
  __hash__ py_hash a = __hash__ py_hash b.
Proof.
  intros H.
  destruct (_graph anm a) as [ga|x] eqn:Ha.
  2:{ unfold __eq__, is_multigraph in H. rewrite Ha in H. discriminate H. }
  assert (Hp : src_id a = src_id b /\ dst_id a = dst_id b).
  { unfold __eq__ in H. rewrite (is_multigraph_of_graph _ _ _ Ha) in H.
    simpl in H. destruct (nx_is_multigraph ga); simpl in H.
    - destruct (is_multigraph anm b) as [[]|]; simpl in H;
        try discriminate H; injection H as H.
      + apply triple_eq_iff in H. tauto.
      + by apply pair_eq_iff in H.
    - injection H as H. by apply pair_eq_iff in H. }
  destruct Hp as [Hs Hd]. unfold __hash__, __key. by rewrite Hs, Hd.
Qed.

Lemma eq_implies_hash_witness :
  __hash__ sample_hash e0
  = __hash__ sample_hash (mk_edge (AStr "phy") node_A node_B (AInt 3)).
Proof.
  apply (eq_implies_hash sample_hash sample_anm). reflexivity.
Defined.

(** X2. Between handles whose overlays exist, equality is reflexive and
    symmetric. *)
Theorem eq_refl_sym anm a b ga gb :
  _graph anm a = Ok ga -> _graph anm b = Ok gb ->
  __eq__ anm a (OpEdge a) = Ok true
  /\ __eq__ anm a (OpEdge b) = __eq__ anm b (OpEdge a).
Proof.
  intros Ha Hb.
  rewrite (eq_handles _ _ _ _ _ Ha Ha), (eq_handles _ _ _ _ _ Ha Hb),
    (eq_handles _ _ _ _ _ Hb Ha).
  split.
  - f_equal. destruct (_ && _); by apply bool_decide_eq_true.
  - f_equal. rewrite (andb_comm (nx_is_multigraph gb)).
    destruct (_ && _); apply bool_decide_ext; split; congruence.
Qed.

Lemma eq_refl_sym_witness :
  __eq__ sample_anm e0 (OpEdge e0) = Ok true /\
  __eq__ sample_anm e0 (OpEdge e_phy) = __eq__ sample_anm e_phy (OpEdge e0).
Proof.
  apply (eq_refl_sym sample_anm e0 e_phy phy2_graph phy_graph); reflexivity.
Defined.

(** X3. Equality is not transitive across kinds: two parallel multigraph
    edges with different keys are both equal to a simple-graph edge on
    the same (src_id, dst_id), and not equal to each other. *)
Theorem eq_not_transitive anm a b c ga gb gc :
  _graph anm a = Ok ga -> _graph anm b = Ok gb -> _graph anm c = Ok gc ->
  nx_is_multigraph ga = true -> nx_is_multigraph gb = false ->
  nx_is_multigraph gc = true ->
  src_id a = src_id b -> dst_id a = dst_id b ->
  src_id b = src_id c -> dst_id b = dst_id c ->
  ekey a <> ekey c ->
  __eq__ anm a (OpEdge b) = Ok true
  /\ __eq__ anm b (OpEdge c) = Ok true
  /\ __eq__ anm a (OpEdge c) = Ok false.
Proof.
  intros Ha Hb Hc Hma Hmb Hmc Hs1 Hd1 Hs2 Hd2 Hk.
  rewrite (eq_handles _ _ _ _ _ Ha Hb), (eq_handles _ _ _ _ _ Hb Hc),
    (eq_handles _ _ _ _ _ Ha Hc), Hma, Hmb, Hmc. simpl.
  repeat split; f_equal.
  - apply pair_eq_iff. auto.
  - apply pair_eq_iff. auto.
  - apply bool_decide_eq_false. intros [= _ _ ?]. contradiction.
Qed.

Lemma eq_not_transitive_witness :
  __eq__ sample_anm e0 (OpEdge e_phy) = Ok true /\
  __eq__ sample_anm e_phy (OpEdge e1) = Ok true /\
  __eq__ sample_anm e0 (OpEdge e1) = Ok false.
Proof.
  apply (eq_not_transitive sample_anm e0 e_phy e1 phy2_graph phy_graph
           phy2_graph); try reflexivity.
  discriminate.
Defined.

Lemma items_eq_atoms l l' : items_eq l (map VAtom l') = bool_decide (l = l').
Proof.
  revert l'. induction l as [|a l IH]; intros [|b l']; simpl;
    try reflexivity.
  rewrite IH. destruct (decide (a = b)) as [->|Hne].
  - rewrite bool_decide_eq_true_2 by done. simpl.
    apply bool_decide_ext. split; congruence.
  - rewrite bool_decide_eq_false_2 by done. simpl.
    symmetry. apply bool_decide_eq_false. congruence.
Qed.

(** X4. Against raw tuples of identifiers: a handle of either kind
    equals exactly the pair (src_id, dst_id); a multigraph handle equals
    exactly the triple (src_id, dst_id, ekey), a simple-graph handle no
    triple at all; and a list is never equal, whatever it holds. *)
Theorem eq_raw_tuples anm e g x y k :
  _graph anm e = Ok g ->
  __eq__ anm e (OpVal (VTuple [VAtom x; VAtom y]))
  = Ok (bool_decide ([src_id e; dst_id e] = [x; y]))
  /\ __eq__ anm e (OpVal (VTuple [VAtom x; VAtom y; VAtom k]))
     = Ok (nx_is_multigraph g
           && bool_decide ([src_id e; dst_id e; ekey e] = [x; y; k]))
  /\ (forall l, __eq__ anm e (OpVal (VList l)) = Ok false).
Proof.
  intros Hg. unfold __eq__. rewrite (is_multigraph_of_graph _ _ _ Hg).
  pose proof (items_eq_atoms [src_id e; dst_id e] [x; y]) as H2.
  pose proof (items_eq_atoms [src_id e; dst_id e; ekey e] [x; y; k]) as H3.
  pose proof (items_eq_atoms [src_id e; dst_id e] [x; y; k]) as H23.
  rewrite bool_decide_eq_false_2 in H23 by discriminate.
  simpl map in H2, H3, H23.
  destruct (nx_is_multigraph g); cbn -[items_eq]; rewrite ?H2, ?H3, ?H23;
    (split; [reflexivity|]); (split; [reflexivity|]); intros l;
    [|reflexivity].
  destruct l as [|? [|? [|? [|? ?]]]]; reflexivity.
Qed.

Lemma eq_raw_tuples_witness :
  __eq__ sample_anm e_phy (OpVal (VTuple [VAtom node_A; VAtom node_B]))
  = Ok true /\
  __eq__ sample_anm e_phy
    (OpVal (VTuple [VAtom node_A; VAtom node_B; VAtom (AInt 0)])) = Ok false /\
  __eq__ sample_anm e1
    (OpVal (VTuple [VAtom node_A; VAtom node_B; VAtom (AInt 1)])) = Ok true.
Proof.
  pose proof (eq_raw_tuples sample_anm e_phy phy_graph node_A node_B (AInt 0)
                eq_refl) as (H1 & H2 & _).
  pose proof (eq_raw_tuples sample_anm e1 phy2_graph node_A node_B (AInt 1)
                eq_refl) as (_ & H3 & _).
  split; [exact H1|]. split; [exact H2 | exact H3].
Defined.

(** X5. Between handles whose overlays exist, of whatever kinds, [a < b]
    excludes both [b < a] and [a == b]. *)
Theorem lt_asym_excludes_eq anm a b ga gb :
  _graph anm a = Ok ga -> _graph anm b = Ok gb ->
  __lt__ anm a (OpEdge b) = Ok true ->
  __lt__ anm b (OpEdge a) = Ok false /\ __eq__ anm a (OpEdge b) = Ok false.
Proof.
  intros Ha Hb.
  rewrite (lt_handles _ _ _ _ _ Ha Hb), (lt_handles _ _ _ _ _ Hb Ha),
    (eq_handles _ _ _ _ _ Ha Hb), (andb_comm (nx_is_multigraph gb)).
  set (m := nx_is_multigraph ga && nx_is_multigraph gb).
  intros [= H]. unfold tuple_lt in *.
  destruct (tuple_cmp (order_key m a) (order_key m b)) eqn:E;
    try discriminate H.
  split; f_equal.
  - by rewrite tuple_cmp_antisym, E.
  - assert (Hne : order_key m a <> order_key m b).
    { intros Heq. apply tuple_cmp_eq in Heq. congruence. }
    destruct m; apply bool_decide_eq_false; intros Heq; apply Hne;
      unfold order_key; simpl; congruence.
Qed.

Lemma lt_asym_excludes_eq_witness :
  __lt__ sample_anm e1 (OpEdge e0) = Ok false /\
  __eq__ sample_anm e0 (OpEdge e1) = Ok false.
Proof.
  apply (lt_asym_excludes_eq sample_anm e0 e1 phy2_graph phy2_graph);
    reflexivity.
Defined.

(** ** Stale and dangling handles *)

Lemma names_attribute_not_reserved inherited key :
  names_attribute inherited key = false -> key <> "raw_interfaces".
Proof.
  unfold names_attribute. intros H ->.
  apply orb_false_iff in H as [H _]. vm_compute in H. discriminate H.
Qed.

Lemma graph_missing anm e :
  overlay_nx_graphs anm !! overlay_id e = None -> _graph anm e = Raise KeyError.
Proof. unfold _graph. by intros ->. Qed.

(** X6. A handle is built without any check; when its overlay does not
    exist, the truth test, every comparison, every read of a stored
    attribute, every write, the port accessors and the dump raise
    KeyError. *)
Theorem missing_overlay_raises anm e :
  overlay_nx_graphs anm !! overlay_id e = None ->
  __nonzero__ anm e = Raise KeyError
  /\ (forall other, __eq__ anm e other = Raise KeyError)
  /\ (forall other, __lt__ anm e other = Raise KeyError)
  /\ (forall key val, set anm e key val = Raise KeyError)
  /\ (forall inherited key,
        names_attribute inherited key = false ->
        get inherited anm e key = Raise KeyError)
  /\ (forall inherited,
        inherited "_ports" = false ->
        src_int inherited anm e = Raise KeyError
        /\ dst_int inherited anm e = Raise KeyError
        /\ interfaces inherited anm e = Raise KeyError)
  /\ (forall py_str, dump py_str anm e = Raise KeyError).
Proof.
  intros H. apply graph_missing in H.
  assert (Hd : _data anm e = Raise KeyError).
  { unfold _data. by rewrite H. }
  assert (Hp : forall inherited, inherited "_ports" = false ->
                 get_plain inherited anm e "_ports" = Raise KeyError).
  { intros inherited Hi.
    rewrite get_plain_unknown by (by apply names_attribute_ports).
    unfold data_get. by rewrite Hd. }
  repeat split.
  - unfold __nonzero__, is_multigraph. by rewrite H.
  - intros other. unfold __eq__, is_multigraph. by rewrite H.
  - intros other. unfold __lt__, is_multigraph. by rewrite H.
  - intros key val. unfold set, raw_interfaces_setter, data_setitem.
    rewrite Hd. case_bool_decide; simpl; [reflexivity | by rewrite Hd].
  - intros inherited key Hk. rewrite (get_unknown _ _ _ _ Hk).
    unfold data_get. by rewrite Hd.
  - unfold src_int. by rewrite Hp.
  - unfold dst_int. by rewrite Hp.
  - unfold interfaces. by rewrite Hp.
  - intros py_str. unfold dump. by rewrite H.
Qed.

Lemma missing_overlay_raises_witness :
  __nonzero__ sample_anm e_lost = Raise KeyError /\
  __eq__ sample_anm e_lost (OpVal (VTuple [VAtom node_A; VAtom node_B]))
  = Raise KeyError /\
  set sample_anm e_lost "bandwidth" (VAtom (AInt 1)) = Raise KeyError.
Proof.
  pose proof (missing_overlay_raises sample_anm e_lost eq_refl)
    as (H1 & H2 & _ & H4 & _).
  split; [exact H1|]. split; [apply H2 | apply H4].
Defined.

(** ** Writes and the shape of the graph *)

Lemma has_edge_graph_any dir adj u v key :
  has_edge (mk_graph dir (Graph adj)) u v key
  = bool_decide (is_Some (nbr adj u v)).
Proof.
  unfold has_edge, nbr. simpl.
  destruct (adj !! u) as [n|]; simpl;
    first [reflexivity | symmetry; apply bool_decide_eq_false; by intros [? ?]].
Qed.

Lemma has_edge_multigraph_any dir adj u v :
  has_edge (mk_graph dir (MultiGraph adj)) u v None
  = bool_decide (is_Some (nbr adj u v)).
Proof.
  unfold has_edge, nbr. simpl.
  destruct (adj !! u) as [n|]; simpl;
    first [reflexivity | symmetry; apply bool_decide_eq_false; by intros [? ?]].
Qed.

Lemma nbr_alter_is_Some {X} (h : X -> X) a b
    (adj : gmap atom (gmap atom X)) u v :
  is_Some (nbr (alter (alter h b) a adj) u v) <-> is_Some (nbr adj u v).
Proof.
  destruct (decide (a = u)) as [->|Hne].
  - rewrite nbr_alter_same. unfold nbr.
    destruct (adj !! u) as [n|]; simpl; [|reflexivity].
    apply lookup_alter_is_Some.
  - by rewrite nbr_alter_other.
Qed.

Lemma nbr_alter_key_is_Some {X} (f : X -> X) k a b
    (adj : gmap atom (gmap atom (gmap atom X))) u v k2 :
  is_Some (nbr (alter (alter (alter f k) b) a adj) u v ≫= (.!! k2))
  <-> is_Some (nbr adj u v ≫= (.!! k2)).
Proof.
  destruct (decide (a = u)) as [->|Hne].
  - rewrite nbr_alter_same. unfold nbr.
    destruct (adj !! u) as [n|]; simpl; [|reflexivity].
    destruct (decide (b = v)) as [->|Hb].
    + rewrite lookup_alter_eq.
      destruct (n !! v) as [ks|]; simpl; [|reflexivity].
      apply lookup_alter_is_Some.
    + by rewrite lookup_alter_ne.
  - by rewrite nbr_alter_other.
Qed.

(** Assigning into a record adds no edge and removes none. *)
Lemma has_edge_alter_record f u v k g u2 v2 key :
  has_edge (alter_record f u v k g) u2 v2 key = has_edge g u2 v2 key.
Proof.
  destruct g as [dir [adj|adj]]; unfold alter_record; simpl.
  - rewrite !has_edge_graph_any. apply bool_decide_ext.
    destruct (dir || bool_decide (u = v)); by rewrite !nbr_alter_is_Some.
  - destruct key as [k2|].
    + rewrite !has_edge_multigraph. apply bool_decide_ext.
      destruct (dir || bool_decide (u = v)); by rewrite !nbr_alter_key_is_Some.
    + rewrite !has_edge_multigraph_any. apply bool_decide_ext.
      destruct (dir || bool_decide (u = v)); by rewrite !nbr_alter_is_Some.
Qed.

Lemma data_setitem_inv anm e key val anm' :
  data_setitem anm e key val = Ok anm' ->
  exists r g,
    _data anm e = Ok r /\ _graph anm e = Ok g /\
    anm' = with_overlay anm (overlay_id e)
             (alter_record (<[key := val]>) (src_id e) (dst_id e) (ekey e) g).
Proof.
  unfold data_setitem. intros H.
  destruct (_data anm e) as [r|] eqn:Hr; [|discriminate H].
  destruct (_graph anm e) as [g|] eqn:Hg; [|discriminate H].
  simpl in H. injection H as <-. exists r, g. auto.
Qed.

Lemma data_setitem_nonzero anm e key val anm' e2 :
  data_setitem anm e key val = Ok anm' ->
  __nonzero__ anm' e2 = __nonzero__ anm e2.
Proof.
  intros H. apply data_setitem_inv in H as (r & g & _ & Hg & ->).
  destruct (decide (overlay_id e2 = overlay_id e)) as [Heq|Hne].
  - assert (Hg2 : _graph anm e2 = Ok g).
    { apply graph_lookup. rewrite Heq. by apply graph_lookup. }
    assert (Hg2' : _graph (with_overlay anm (overlay_id e)
                     (alter_record (<[key := val]>) (src_id e) (dst_id e)
                        (ekey e) g)) e2
                   = Ok (alter_record (<[key := val]>) (src_id e) (dst_id e)
                           (ekey e) g)).
    { apply graph_lookup. simpl. rewrite Heq. apply lookup_insert_eq. }
    rewrite (nonzero_of_graph _ _ _ Hg2), (nonzero_of_graph _ _ _ Hg2').
    rewrite has_edge_alter_record. f_equal. f_equal.
    unfold edge_key, alter_record, nx_is_multigraph.
    destruct (adjacency g); reflexivity.
  - unfold __nonzero__, is_multigraph, _graph, with_overlay. simpl.
    by rewrite lookup_insert_ne.
Qed.

Lemma data_setitem_other_overlay anm e key val anm' e2 :
  data_setitem anm e key val = Ok anm' ->
  overlay_id e2 <> overlay_id e ->
  _data anm' e2 = _data anm e2.
Proof.
  intros H Hne. apply data_setitem_inv in H as (r & g & _ & Hg & ->).
  unfold _data, _graph, with_overlay. simpl. by rewrite lookup_insert_ne.
Qed.

(** What a successful [set] leaves in the record of the edge. *)
Lemma set_inv anm e key val anm' :
  set anm e key val = Ok anm' ->
  exists r,
    _data anm e = Ok r /\
    _data anm' e
    = Ok (<[key := val]> (if bool_decide (key = "raw_interfaces")
                          then <["_ports" := val]> r else r))
    /\ (forall e2, __nonzero__ anm' e2 = __nonzero__ anm e2)
    /\ (forall e2, overlay_id e2 <> overlay_id e ->
                   _data anm' e2 = _data anm e2).
Proof.
  unfold set, raw_interfaces_setter. intros H.
  destruct (_data anm e) as [r|x] eqn:Hr.
  2:{ rewrite !(data_setitem_raises _ _ _ _ _ Hr) in H.
      case_bool_decide; simpl in H; [discriminate H|].
      rewrite (data_setitem_raises _ _ _ _ _ Hr) in H. discriminate H. }
  exists r. split; [reflexivity|].
  case_bool_decide as Hk.
  - destruct (data_setitem_ok anm e "_ports" val r Hr) as (anm1 & H1 & Hd1 & _).
    rewrite H1 in H. simpl in H.
    destruct (data_setitem_ok anm1 e key val _ Hd1) as (anm2 & H2 & Hd2 & _).
    rewrite H2 in H. injection H as <-.
    split; [exact Hd2|]. split.
    + intros e2. rewrite (data_setitem_nonzero _ _ _ _ _ e2 H2).
      apply (data_setitem_nonzero _ _ _ _ _ e2 H1).
    + intros e2 Hne. rewrite (data_setitem_other_overlay _ _ _ _ _ e2 H2 Hne).
      apply (data_setitem_other_overlay _ _ _ _ _ e2 H1 Hne).
  - simpl in H.
    destruct (data_setitem_ok anm e key val r Hr) as (anm1 & H1 & Hd1 & _).
    rewrite H1 in H. injection H as <-.
    split; [exact Hd1|]. split.
    + intros e2. apply (data_setitem_nonzero _ _ _ _ _ e2 H1).
    + intros e2 Hne. apply (data_setitem_other_overlay _ _ _ _ _ e2 H1 Hne).
Qed.

Lemma set_ok anm e key val r :
  _data anm e = Ok r -> exists anm', set anm e key val = Ok anm'.
Proof.
  intros Hr. unfold set, raw_interfaces_setter. case_bool_decide.
  - destruct (data_setitem_ok anm e "_ports" val r Hr) as (anm1 & H1 & Hd1 & _).
    rewrite H1. simpl.
    destruct (data_setitem_ok anm1 e key val _ Hd1) as (anm2 & H2 & _).
    eauto.
  - simpl. destruct (data_setitem_ok anm e key val r Hr) as (anm1 & H1 & _).
    eauto.
Qed.

(** X7. [set] succeeds exactly on an existing edge, and it never adds
    or removes an edge: afterwards every handle has the truth value it
    had before.  On a handle whose edge has been removed it raises
    KeyError; it does not bring the edge back. *)
Theorem set_keeps_edges anm e key val :
  (__nonzero__ anm e = Ok true <-> exists anm', set anm e key val = Ok anm')
  /\ (forall anm' e2,
        set anm e key val = Ok anm' ->
        __nonzero__ anm' e2 = __nonzero__ anm e2)
  /\ (forall g g',
        overlay_nx_graphs anm !! overlay_id e = Some g ->
        remove_edge g (src_id e) (dst_id e) (edge_key g e) = Some g' ->
        set (with_overlay anm (overlay_id e) g') e key val = Raise KeyError).
Proof.
  split; [|split].
  - split.
    + intros H. apply nonzero_data in H as [r Hr]. by apply (set_ok _ _ _ _ r).
    + intros [anm' H]. apply set_inv in H as (r & Hr & _).
      apply nonzero_data. eauto.
  - intros anm' e2 H. apply set_inv in H as (r & _ & _ & Hnz & _). apply Hnz.
  - intros g g' Hg Hrm.
    pose proof (nonzero_after_remove anm e g g' Hg Hrm) as Hnz.
    apply nonzero_false_data in Hnz.
    unfold set, raw_interfaces_setter.
    rewrite !(data_setitem_raises _ _ _ _ _ Hnz).
    case_bool_decide; simpl; [reflexivity|].
    by rewrite (data_setitem_raises _ _ _ _ _ Hnz).
Qed.

Lemma set_keeps_edges_witness :
  (exists anm', set sample_anm e0 "cost" (VAtom (AInt 3)) = Ok anm' /\
                __nonzero__ anm' e1 = Ok true /\
                __nonzero__ anm' e9 = Ok false)
  /\ (exists g', remove_edge phy2_graph node_A node_B (Some (AInt 0)) = Some g' /\
                 set (with_overlay sample_anm (AStr "phy2") g') e0 "cost"
                     (VAtom (AInt 3)) = Raise KeyError).
Proof.
  pose proof (set_keeps_edges sample_anm e0 "cost" (VAtom (AInt 3)))
    as (Hex & Hkeep & Hrm).
  split.
  - destruct (proj1 Hex eq_refl) as [anm' Hset]. exists anm'.
    split; [exact Hset|].
    rewrite (Hkeep anm' e1 Hset), (Hkeep anm' e9 Hset). split; reflexivity.
  - eexists. split; [reflexivity|].
    apply (Hrm phy2_graph _ eq_refl). reflexivity.
Defined.


Lemma nbr_alter_alter_ne {X} (h : X -> X) a b
    (adj : gmap atom (gmap atom X)) u v :
  (a, b) <> (u, v) ->
  nbr (alter (alter h b) a adj) u v = nbr adj u v.
Proof.
  intros Hne. destruct (decide (a = u)) as [->|Ha].
  - rewrite nbr_alter_same. unfold nbr.
    destruct (adj !! u) as [n|]; simpl; [|reflexivity].
    apply lookup_alter_ne. congruence.
  - by rewrite nbr_alter_other.
Qed.

Lemma nbr_alter_key_ne {X} (f : X -> X) k a b
    (adj : gmap atom (gmap atom (gmap atom X))) u v k2 :
  (a, b) <> (u, v) \/ k <> k2 ->
  nbr (alter (alter (alter f k) b) a adj) u v ≫= (.!! k2)
  = nbr adj u v ≫= (.!! k2).
Proof.
  intros H. destruct (decide ((a, b) = (u, v))) as [[= -> ->]|Hne].
  - destruct H as [H|H]; [done|].
    rewrite nbr_alter_same. unfold nbr.
    destruct (adj !! u) as [n|]; simpl; [|reflexivity].
    rewrite lookup_alter_eq.
    destruct (n !! v) as [ks|]; simpl; [|reflexivity].
    by apply lookup_alter_ne.
  - by rewrite nbr_alter_alter_ne.
Qed.

(** Assigning into the record of one edge leaves the record of every
    edge that is not the same record as it was. *)
Lemma record_at_alter_other f g e e2 :
  same_record g e e2 = false ->
  record_at (alter_record f (src_id e) (dst_id e) (ekey e) g) e2
  = record_at g e2.
Proof.
  destruct g as [dir [adj|adj]];
    unfold same_record, alter_record, record_at, nx_is_multigraph; simpl.
  - rewrite andb_true_r. intros H. apply orb_false_iff in H as [Hp Hr].
    apply bool_decide_eq_false in Hp.
    destruct dir; simpl in *.
    + apply nbr_alter_alter_ne. congruence.
    + apply bool_decide_eq_false in Hr.
      destruct (bool_decide (src_id e = dst_id e)); simpl;
        rewrite ?nbr_alter_alter_ne by congruence; reflexivity.
  - intros H.
    assert (Hor : ((src_id e, dst_id e) <> (src_id e2, dst_id e2)
                   /\ (dir = false ->
                       (dst_id e, src_id e) <> (src_id e2, dst_id e2)))
                  \/ ekey e <> ekey e2).
    { apply andb_false_iff in H as [H|H].
      - left. apply orb_false_iff in H as [Hp Hr].
        apply bool_decide_eq_false in Hp. split; [congruence|].
        intros ->. simpl in Hr. apply bool_decide_eq_false in Hr. congruence.
      - right. apply bool_decide_eq_false in H. congruence. }
    destruct dir; simpl.
    + apply nbr_alter_key_ne. tauto.
    + destruct (bool_decide (src_id e = dst_id e)); simpl.
      * apply nbr_alter_key_ne. tauto.
      * rewrite !nbr_alter_key_ne; [reflexivity | tauto |].
        destruct Hor as [[_ Hr]|Hk]; [left; by apply Hr | by right].
Qed.

Lemma same_record_alter f u v k g e e2 :
  same_record (alter_record f u v k g) e e2 = same_record g e e2.
Proof.
  unfold same_record, alter_record, nx_is_multigraph.
  destruct (adjacency g); reflexivity.
Qed.

Lemma data_setitem_other_record anm e key val anm' g e2 :
  data_setitem anm e key val = Ok anm' ->
  _graph anm e = Ok g ->
  overlay_id e2 = overlay_id e ->
  same_record g e e2 = false ->
  _data anm' e2 = _data anm e2
  /\ exists g', _graph anm' e = Ok g' /\ same_record g' e e2 = false.
Proof.
  intros H Hg Hov Hsr.
  apply data_setitem_inv in H as (r & g0 & _ & Hg0 & ->).
  assert (g0 = g) as -> by congruence.
  set (g' := alter_record (<[key := val]>) (src_id e) (dst_id e) (ekey e) g).
  assert (Hg2 : _graph anm e2 = Ok g).
  { apply graph_lookup. rewrite Hov. by apply graph_lookup. }
  assert (Hg' : forall h, overlay_id h = overlay_id e ->
                  _graph (with_overlay anm (overlay_id e) g') h = Ok g').
  { intros h Hh. apply graph_lookup. simpl. rewrite Hh.
    apply lookup_insert_eq. }
  split.
  - rewrite (data_of_graph _ _ _ (Hg' e2 Hov)), (data_of_graph _ _ _ Hg2).
    unfold g'. by rewrite record_at_alter_other.
  - exists g'. split; [by apply Hg'|]. unfold g'.
    by rewrite same_record_alter.
Qed.

(** X8. A write touches one key of one record.  After a successful
    [set] on a key, [get] on any other stored key of the edge answers
    as before (the reserved key also rewrites ["_ports"]); the record
    of every handle of the same overlay that does not name the same
    record (another node pair, the reversed pair only in an undirected
    graph, or another key in a multigraph) is as it was; and so are
    the records of edges in other overlays. *)
Theorem set_frame inherited anm anm' e key val :
  set anm e key val = Ok anm' ->
  (forall key2,
     names_attribute inherited key2 = false ->
     key2 <> key ->
     (key = "raw_interfaces" -> key2 <> "_ports") ->
     get inherited anm' e key2 = get inherited anm e key2)
  /\ (forall e2, overlay_id e2 <> overlay_id e ->
                 _data anm' e2 = _data anm e2)
  /\ (forall g e2,
        _graph anm e = Ok g ->
        overlay_id e2 = overlay_id e ->
        same_record g e e2 = false ->
        _data anm' e2 = _data anm e2).
Proof.
  intros Hset. pose proof Hset as H.
  apply set_inv in H as (r & Hr & Hr' & _ & Hother).
  split; [|split; [exact Hother|]].
  - intros key2 Hk2 Hne Hres.
    rewrite !(get_unknown _ _ _ _ Hk2). unfold data_get.
    rewrite Hr, Hr'. simpl. rewrite lookup_insert_ne by done.
    case_bool_decide as Hk; [|reflexivity].
    rewrite lookup_insert_ne; [reflexivity|].
    intros Heq. by apply (Hres Hk).
  - intros g e2 Hg Hov Hsr. clear Hr' Hother.
    unfold set, raw_interfaces_setter in Hset.
    case_bool_decide as Hk.
    + destruct (data_setitem_ok anm e "_ports" val r Hr) as (anm1 & H1 & _).
      rewrite H1 in Hset. simpl in Hset.
      destruct (data_setitem_other_record _ _ _ _ _ _ e2 H1 Hg Hov Hsr)
        as (Hd1 & g1 & Hg1 & Hsr1).
      destruct (data_setitem_other_record _ _ _ _ _ _ e2 Hset Hg1 Hov Hsr1)
        as (Hd2 & _).
      by rewrite Hd2.
    + simpl in Hset.
      by destruct (data_setitem_other_record _ _ _ _ _ _ e2 Hset Hg Hov Hsr).
Qed.

Lemma set_frame_witness :
  (exists anm', set tagged_anm e_tagged "cost" (VAtom (AInt 3)) = Ok anm' /\
                get sample_inherited anm' e_tagged "bandwidth"
                = Ok (OVal (VAtom (AInt 100))))
  /\ (exists anm', set sample_anm e0 "cost" (VAtom (AInt 3)) = Ok anm' /\
                   _data anm' e0 = Ok {[ "cost" := VAtom (AInt 3) ]} /\
                   _data anm' e1 = Ok ∅).
Proof.
  split.
  - destruct (set tagged_anm e_tagged "cost" (VAtom (AInt 3)))
      as [anm'|x] eqn:E; [|discriminate E].
    exists anm'. split; [reflexivity|].
    rewrite (proj1 (set_frame sample_inherited tagged_anm anm' e_tagged "cost"
                      (VAtom (AInt 3)) E) "bandwidth");
      [reflexivity | reflexivity | discriminate | discriminate].
  - destruct (set sample_anm e0 "cost" (VAtom (AInt 3)))
      as [anm'|x] eqn:E; [|discriminate E].
    exists anm'. split; [reflexivity|]. split.
    + injection E as <-. reflexivity.
    + rewrite (proj2 (proj2 (set_frame sample_inherited sample_anm anm' e0
                               "cost" (VAtom (AInt 3)) E))
                 phy2_graph e1 eq_refl eq_refl eq_refl).
      reflexivity.
Defined.

(** X9. The last write wins: two writes to one ordinary key of an
    existing edge both succeed, and [get] then returns the second
    value. *)
Theorem set_twice inherited anm e key v1 v2 :
  __nonzero__ anm e = Ok true ->
  names_attribute inherited key = false ->
  exists anm1 anm2,
    set anm e key v1 = Ok anm1 /\ set anm1 e key v2 = Ok anm2 /\
    get inherited anm2 e key = Ok (OVal v2).
Proof.
  intros Hnz Hk. apply nonzero_data in Hnz as [r Hr].
  destruct (set_ok anm e key v1 r Hr) as [anm1 H1].
  pose proof H1 as H1'. apply set_inv in H1' as (r0 & _ & Hr1 & _).
  destruct (set_ok anm1 e key v2 _ Hr1) as [anm2 H2].
  pose proof H2 as H2'. apply set_inv in H2' as (r1 & _ & Hr2 & _).
  exists anm1, anm2. split; [exact H1|]. split; [exact H2|].
  rewrite (get_unknown _ _ _ _ Hk). unfold data_get. rewrite Hr2. simpl.
  by rewrite lookup_insert_eq.
Qed.

Lemma set_twice_witness :
  exists anm1 anm2,
    set sample_anm e_phy "cost" (VAtom (AInt 1)) = Ok anm1 /\
    set anm1 e_phy "cost" VNone = Ok anm2 /\
    get sample_inherited anm2 e_phy "cost" = Ok (OVal VNone).
Proof.
  apply (set_twice sample_inherited sample_anm e_phy "cost"); reflexivity.
Defined.

(** ** Bindings written and enumerated *)

Lemma get_raw_interfaces inherited anm e :
  get inherited anm e "raw_interfaces"
  = match get_plain inherited anm e "_ports" with
    | Ok o => Ok o
    | Raise _ => data_get anm e "raw_interfaces"
    end.
Proof.
  unfold get, hasattr, getattr, raw_interfaces. simpl.
  destruct (get_plain inherited anm e "_ports"); reflexivity.
Qed.

(** X10. Writing a binding map through the reserved key makes it the
    map the handle reads: on an existing edge, after
    [set("raw_interfaces", d)] both [get("raw_interfaces")] and
    [get("_ports")] return [d], and [src_int] and [dst_int] answer from
    [d], raising KeyError for an endpoint [d] does not bind. *)
Theorem set_raw_interfaces inherited anm e d :
  __nonzero__ anm e = Ok true ->
  inherited "_ports" = false ->
  exists anm',
    set anm e "raw_interfaces" (VDict d) = Ok anm'
    /\ get inherited anm' e "raw_interfaces" = Ok (OVal (VDict d))
    /\ get inherited anm' e "_ports" = Ok (OVal (VDict d))
    /\ src_int inherited anm' e
       = match dict_lookup d (src_id e) with
         | Some i => Ok (mk_port (overlay_id e) (src_id e) i)
         | None => Raise KeyError
         end
    /\ dst_int inherited anm' e
       = match dict_lookup d (dst_id e) with
         | Some i => Ok (mk_port (overlay_id e) (dst_id e) i)
         | None => Raise KeyError
         end.
Proof.
  intros Hnz Hi. apply nonzero_data in Hnz as [r Hr].
  destruct (set_ok anm e "raw_interfaces" (VDict d) r Hr) as [anm' Hset].
  exists anm'. split; [exact Hset|].
  apply set_inv in Hset as (r0 & Hr0 & Hr' & _).
  rewrite bool_decide_eq_true_2 in Hr' by reflexivity.
  assert (Hp : get_plain inherited anm' e "_ports" = Ok (OVal (VDict d))).
  { rewrite (get_ports_dict _ _ _ _ Hi Hr').
    rewrite lookup_insert_ne by discriminate.
    by rewrite lookup_insert_eq. }
  split; [by rewrite get_raw_interfaces, Hp|].
  split; [by rewrite get_plain_eq|].
  unfold src_int, dst_int. rewrite Hp. simpl.
  split; [destruct (dict_lookup d (src_id e)) | destruct (dict_lookup d (dst_id e))];
    reflexivity.
Qed.

Lemma set_raw_interfaces_witness :
  exists anm',
    set tagged_anm e_tagged "raw_interfaces"
        (VDict [(node_A, VAtom (AStr "eth0"))]) = Ok anm' /\
    src_int sample_inherited anm' e_tagged
    = Ok (mk_port (AStr "tagged") node_A (VAtom (AStr "eth0"))) /\
    dst_int sample_inherited anm' e_tagged = Raise KeyError.
Proof.
  destruct (set_raw_interfaces sample_inherited tagged_anm e_tagged
              [(node_A, VAtom (AStr "eth0"))] eq_refl eq_refl)
    as (anm' & Hset & _ & _ & Hs & Hd).
  exists anm'. split; [exact Hset|]. split; [exact Hs | exact Hd].
Defined.

Lemma dict_lookup_elem d k v : dict_lookup d k = Some v -> (k, v) ∈ d.
Proof.
  induction d as [|[k' v'] d IH]; simpl; [discriminate|].
  case_bool_decide as Hk.
  - intros [= ->]. subst. apply elem_of_cons. by left.
  - intros H. apply elem_of_cons. right. auto.
Qed.

(** X11. With a binding map [d] on the record, [interfaces] returns
    one handle per item of [d], in the order of [d], each in the
    overlay of the edge and carrying the item's node id and interface
    id; whatever [src_int] or [dst_int] returns is among them.  An
    empty map gives the empty list, but a record without any map makes
    [interfaces] raise AttributeError. *)
Theorem interfaces_of_bindings inherited anm e r :
  inherited "_ports" = false ->
  _data anm e = Ok r ->
  (forall d, r !! "_ports" = Some (VDict d) ->
     exists ps,
       interfaces inherited anm e = Ok ps
       /\ map (fun p => (port_node_id p, interface_id p)) ps = d
       /\ Forall (fun p => port_overlay_id p = overlay_id e) ps
       /\ (forall p, src_int inherited anm e = Ok p -> p ∈ ps)
       /\ (forall p, dst_int inherited anm e = Ok p -> p ∈ ps))
  /\ (r !! "_ports" = None ->
        interfaces inherited anm e = Raise AttributeError).
Proof.
  intros Hi Hr. unfold interfaces, src_int, dst_int.
  rewrite (get_ports_dict _ _ _ _ Hi Hr). split.
  - intros d ->. simpl. eexists. split; [reflexivity|].
    assert (Hmem : forall k p,
              (i <- getitem (VDict d) k ;; Ok (mk_port (overlay_id e) k i))
              = Ok p ->
              p ∈ map (fun item => mk_port (overlay_id e) item.1 item.2) d).
    { intros k p. simpl.
      destruct (dict_lookup d k) as [i|] eqn:E; simpl; [|discriminate].
      intros [= <-]. apply dict_lookup_elem in E.
      apply (list_elem_of_fmap_2
               (fun item => mk_port (overlay_id e) item.1 item.2) d (k, i) E). }
    split; [|split; [|split]].
    + clear Hmem. rewrite map_map. simpl.
      induction d as [|[k v] d IH]; simpl; [reflexivity | by f_equal].
    + apply Forall_forall. intros p Hp.
      apply list_elem_of_fmap in Hp as (item & -> & _). reflexivity.
    + intros p. apply Hmem.
    + intros p. apply Hmem.
  - intros ->. reflexivity.
Qed.

Lemma interfaces_of_bindings_witness :
  interfaces sample_inherited sample_anm e_phy
  = Ok [mk_port (AStr "phy") node_A (VAtom (AStr "eth0"));
        mk_port (AStr "phy") node_B (VAtom (AStr "eth1"))] /\
  interfaces sample_inherited tagged_anm e_tagged = Raise AttributeError.
Proof.
  split.
  - destruct (proj1 (interfaces_of_bindings sample_inherited sample_anm e_phy
                       phy_record eq_refl eq_refl) _ eq_refl)
      as (ps & Hps & _).
    rewrite Hps. f_equal. injection Hps as <-. reflexivity.
  - apply (proj2 (interfaces_of_bindings sample_inherited tagged_anm e_tagged
                    tagged_record eq_refl eq_refl)).
    reflexivity.
Defined.

(** ** Dumping *)

(** X12. [dump] reads [G[src_id][dst_id]] without the edge key: handles
    that agree on overlay, src_id and dst_id dump alike, the dump
    succeeds exactly when the graph has some edge between the two
    nodes, and so for every existing edge, and in a multigraph also
    for a handle whose own key is gone while a parallel edge remains. *)
Theorem dump_ignores_ekey (py_str : dumped -> string) anm e :
  (forall e2,
     overlay_id e2 = overlay_id e -> src_id e2 = src_id e ->
     dst_id e2 = dst_id e ->
     dump py_str anm e2 = dump py_str anm e)
  /\ (forall g, _graph anm e = Ok g ->
        is_ok (dump py_str anm e) = has_edge g (src_id e) (dst_id e) None)
  /\ (__nonzero__ anm e = Ok true -> is_ok (dump py_str anm e) = true).
Proof.
  assert (Hok : forall g, _graph anm e = Ok g ->
            is_ok (dump py_str anm e) = has_edge g (src_id e) (dst_id e) None).
  { intros g Hg. unfold dump. rewrite Hg. simpl.
    destruct g as [dir [adj|adj]]; simpl; rewrite nx_getitem2_nbr.
    - rewrite has_edge_graph.
      destruct (nbr adj (src_id e) (dst_id e)); simpl;
        first [reflexivity
              | symmetry; apply bool_decide_eq_false; by intros [? ?]].
    - rewrite has_edge_multigraph_any.
      destruct (nbr adj (src_id e) (dst_id e)); simpl;
        first [reflexivity
              | symmetry; apply bool_decide_eq_false; by intros [? ?]]. }
  split; [|split; [exact Hok|]].
  - intros e2 Hov Hs Hd. unfold dump, _graph. by rewrite Hov, Hs, Hd.
  - intros Hnz. destruct (_graph anm e) as [g|x] eqn:Hg.
    + rewrite (Hok g eq_refl).
      rewrite (nonzero_of_graph _ _ _ Hg) in Hnz. injection Hnz as Hnz.
      destruct g as [dir [adj|adj]]; unfold edge_key in Hnz; simpl in Hnz.
      * exact Hnz.
      * rewrite has_edge_multigraph in Hnz. rewrite has_edge_multigraph_any.
        apply bool_decide_eq_true in Hnz. apply bool_decide_eq_true.
        destruct (nbr adj (src_id e) (dst_id e)); [eauto | by destruct Hnz].
    + unfold __nonzero__, is_multigraph in Hnz. rewrite Hg in Hnz.
      discriminate Hnz.
Qed.

Lemma dump_ignores_ekey_witness :
  dump sample_str sample_anm e9 = dump sample_str sample_anm e0 /\
  __nonzero__ sample_anm e9 = Ok false /\
  is_ok (dump sample_str sample_anm e9) = true.
Proof.
  pose proof (dump_ignores_ekey sample_str sample_anm e0) as (Hsame & _ & Hex).
  split; [apply Hsame; reflexivity|]. split; [reflexivity|].
  rewrite (Hsame e9 eq_refl eq_refl eq_refl). apply Hex. reflexivity.
Defined.


(** X13. Writing an attribute other than the binding map leaves the
    bindings alone: after [set] on a key that is neither ["_ports"] nor
    the reserved key, [src_int], [dst_int] and [interfaces] answer as
    before. *)
Theorem set_keeps_bindings inherited anm anm' e key val :
  set anm e key val = Ok anm' ->
  key <> "_ports" -> key <> "raw_interfaces" ->
  src_int inherited anm' e = src_int inherited anm e
  /\ dst_int inherited anm' e = dst_int inherited anm e
  /\ interfaces inherited anm' e = interfaces inherited anm e.
Proof.
  intros H Hp Hres. apply set_inv in H as (r & Hr & Hr' & _).
  rewrite bool_decide_eq_false_2 in Hr' by done.
  assert (Hsame : get_plain inherited anm' e "_ports"
                  = get_plain inherited anm e "_ports").
  { unfold get_plain, data_get. rewrite Hr, Hr'. simpl.
    by rewrite lookup_insert_ne. }
  unfold src_int, dst_int, interfaces. by rewrite Hsame.
Qed.

Lemma set_keeps_bindings_witness :
  exists anm', set sample_anm e_phy "cost" (VAtom (AInt 3)) = Ok anm' /\
               src_int sample_inherited anm' e_phy
               = Ok (mk_port (AStr "phy") node_A (VAtom (AStr "eth0"))).
Proof.
  destruct (set sample_anm e_phy "cost" (VAtom (AInt 3))) as [anm'|x] eqn:E;
    [|discriminate E].
  exists anm'. split; [reflexivity|].
  rewrite (proj1 (set_keeps_bindings sample_inherited sample_anm anm' e_phy
                    "cost" (VAtom (AInt 3)) E ltac:(discriminate)
                    ltac:(discriminate))).
  reflexivity.
Defined.
